(** * Kubernetes job objects of the Kueue executor

    A shallow embedding of [snakemake_executor_kueue/custom_resource.py]:
    the [JobStatus] enumeration, the [KubernetesObject] base class and its
    two subclasses [BatchJob] and [FluxMiniCluster].

    - Python scalars are the values of [pyval]; [int] is unbounded, hence [Z].
    - A [dict] read only through [get] or by key is a [gmap]; the
      [environment] mapping is iterated in insertion order, hence an
      association list.
    - Calls to the cluster client, the logger and the file helper are the
      constructors of [api_call]; a method is a program of [prog], a tree of
      such calls, and [run] executes it against any client.
    - Classes are the values of [class]; attribute lookup walks the method
      resolution order [mro], and a missing method raises [AttributeError]. *)

From Stdlib Require Import ZArith String Ascii List DecimalString.
From stdpp Require Import base option strings gmap.

Local Open Scope Z_scope.

(** ** Python values *)

Module Py.

(** The scalars a resource or an identifier can be; floating-point numbers
    are left out. *)
Inductive pyval : Type :=
| PyNone
| PyBool (b : bool)
| PyInt (z : Z)
| PyStr (s : string).

#[global] Instance pyval_eq_dec : EqDecision pyval.
Proof. solve_decision. Defined.

(** Truth value testing: [None], [False], [0] and [""] are false. *)
Definition truthy (v : pyval) : bool :=
  match v with
  | PyNone => false
  | PyBool b => b
  | PyInt z => negb (z =? 0)
  | PyStr s => negb (String.eqb s "")
  end.

(** [a or b] *)
Definition py_or (a b : pyval) : pyval := if truthy a then a else b.

(** Truth value of an optional integer attribute ([None] or an [int]). *)
Definition truthy_int (o : option Z) : bool :=
  match o with
  | None => false
  | Some z => negb (z =? 0)
  end.

(** [str(z)] for an [int]. *)
Definition str_int (z : Z) : string := NilZero.string_of_int (Z.to_int z).

(** [str(v)], which is what the conversion [%s] and an f-string field apply. *)
Definition str (v : pyval) : string :=
  match v with
  | PyNone => "None"
  | PyBool true => "True"
  | PyBool false => "False"
  | PyInt z => str_int z
  | PyStr s => s
  end.

(** [str(o)] of an optional string attribute. *)
Definition str_opt (o : option string) : string := default "None" o.

(** [s.replace(old, new)] for one-character [old] and [new]: every
    occurrence is replaced. *)
Fixpoint replace (old new : ascii) (s : string) : string :=
  match s with
  | EmptyString => EmptyString
  | String c s' =>
      String (if Ascii.eqb c old then new else c) (replace old new s')
  end.

(** [sep.join(l)] *)
Definition join (sep : string) (l : list string) : string := String.concat sep l.

(** [d.get(key, dflt)]; [d.get(key)] is [get d key PyNone]. *)
Definition get (d : gmap string pyval) (key : string) (dflt : pyval) : pyval :=
  default dflt (d !! key).

End Py.
Import Py.

(** ** Exceptions *)

(** [AttributeError ty attr]: an object of type [ty] has no attribute
    [attr]; raised by the code under study.  The other two are the
    exceptions of the cluster client: [ApiValueError] for a call rejected
    before it is sent, [ApiException] for an answer of the server. *)
Inductive exn : Type :=
| AttributeError (ty attr : string)
| ApiValueError (msg : string)
| ApiException (status : Z) (reason : string).

(** ** Data model *)

Inductive JobStatus : Type := ACTIVE | FAILED | READY | SUCCEEDED | UNKNOWN.

#[global] Instance JobStatus_eq_dec : EqDecision JobStatus.
Proof. solve_decision. Defined.

(** [JobStatus.X.value] *)
Definition JobStatus_value (s : JobStatus) : Z :=
  match s with
  | ACTIVE => 1
  | FAILED => 3
  | READY => 2
  | SUCCEEDED => 4
  | UNKNOWN => 5
  end.

(** The workflow engine's job: [job.name], [job.jobid], [job.resources]. *)
Record Job : Type := {
  job_name : string;
  job_jobid : pyval;
  job_resources : gmap string pyval;
}.

Record ExecutorSettings : Type := {
  namespace : string;
  queue_name : string;
}.

Inductive class : Type := KubernetesObject | BatchJob | FluxMiniCluster.

#[global] Instance class_eq_dec : EqDecision class.
Proof. solve_decision. Defined.

(** An instance of one of the classes; [__init__] is [new]. *)
Record handle : Type := {
  cls : class;
  job : Job;
  executor_args : ExecutorSettings;
  jobname : option string;
}.

Definition new (c : class) (j : Job) (a : ExecutorSettings) : handle :=
  {| cls := c; job := j; executor_args := a; jobname := None |}.

Definition set_jobname (self : handle) (n : option string) : handle :=
  {| cls := cls self; job := job self;
     executor_args := executor_args self; jobname := n |}.

(** *** Objects of the [kubernetes] client *)

Record V1ObjectMeta : Type := {
  meta_name : option string;
  meta_generate_name : option string;
  meta_namespace : option string;
  meta_labels : gmap string string;
}.

Record EnvVar : Type := { env_name : string; env_value : string }.

(** [active_deadline_seconds] is not a constructor argument of the container:
    it is [None] until the generator assigns it. *)
Record V1Container : Type := {
  c_image : string;
  c_name : string;
  c_command : list string;
  c_args : list string;
  c_working_dir : option string;
  c_env : list EnvVar;
  c_resources : gmap string (gmap string pyval);
  c_active_deadline_seconds : pyval;
}.

(** [{"spec": {"containers": [...], "restartPolicy": ...}}] *)
Record PodSpec : Type := {
  containers : list V1Container;
  restartPolicy : string;
}.

Record PodTemplate : Type := { template_spec : PodSpec }.

Record V1JobSpec : Type := {
  parallelism : pyval;
  completions : option Z;
  suspend : option bool;
  template : option PodTemplate;
}.

Record V1JobStatus : Type := {
  failed : option Z;
  active : option Z;
  ready : option Z;
  succeeded : option Z;
}.

Record V1Job : Type := {
  j_api_version : option string;
  j_kind : option string;
  j_metadata : option V1ObjectMeta;
  j_spec : option V1JobSpec;
  j_status : option V1JobStatus;
}.

Record V1Pod : Type := { pod_metadata : option V1ObjectMeta }.

Record V1PodList : Type := { items : list V1Pod }.

(** *** Objects of [fluxoperator.models] *)

Record MiniClusterContainer : Type := {
  mc_command : string;
  mc_environment : option (list (string * string));
  mc_image : string;
  mc_resources : gmap string (gmap string pyval);
}.

(** [deadline] is [None] until the generator assigns it. *)
Record MiniClusterSpec : Type := {
  ms_job_labels : gmap string string;
  ms_containers : list MiniClusterContainer;
  ms_working_dir : option string;
  ms_size : pyval;
  ms_tasks : pyval;
  ms_logging : gmap string bool;
  ms_deadline : pyval;
}.

Record MiniCluster : Type := {
  m_kind : string;
  m_api_version : string;
  m_metadata : option V1ObjectMeta;
  m_spec : MiniClusterSpec;
}.

(** What [generate] returns and [submit] receives: the methods are untyped,
    so either class accepts either object. *)
Inductive k8s_object : Type :=
| JobObject (j : V1Job)
| MiniClusterObject (m : MiniCluster).

(** [o.metadata] *)
Definition metadata_of (o : k8s_object) : option V1ObjectMeta :=
  match o with
  | JobObject j => j_metadata j
  | MiniClusterObject m => m_metadata m
  end.

(** *** Decoded JSON

    What the [kubernetes] client hands back where it has no model class:
    [CustomObjectsApi] returns the answer of the server as decoded JSON, a
    [dict] of built-in values, not an object with attributes. *)
#[local] Unset Elimination Schemes.

Inductive json : Type :=
| JNull
| JBool (b : bool)
| JNum (z : Z)
| JStr (s : string)
| JList (l : list json)
| JDict (d : list (string * json)).

#[local] Set Elimination Schemes.

(** [type(v).__name__] *)
Definition json_type (v : json) : string :=
  match v with
  | JNull => "NoneType"
  | JBool _ => "bool"
  | JNum _ => "int"
  | JStr _ => "str"
  | JList _ => "list"
  | JDict _ => "dict"
  end.

(** ** Effects *)

(** The calls the module makes to its collaborators, each indexed by the
    type of its answer: [client.BatchV1Api], [client.CustomObjectsApi],
    [client.CoreV1Api], [logger] and [utils]. *)
Inductive api_call : Type -> Type :=
| read_namespaced_job (name : option string) (ns : string) : api_call V1Job
| create_namespaced_job (ns : string) (body : k8s_object) : api_call V1Job
| create_namespaced_custom_object
    (group version ns plural : string) (body : k8s_object) : api_call json
| list_namespaced_pod (ns label_selector : string) : api_call V1PodList
| read_namespaced_pod_log (name : option string) (ns : string) : api_call string
| logger_debug (msg : string) : api_call unit
| write_file (content filename : string) : api_call unit.

Definition event : Type := { X : Type & api_call X }.

Definition ev {X : Type} (c : api_call X) : event := existT X c.

(** A method body: it returns, raises, or makes a call and goes on with
    the answer.  No method catches an exception. *)
Inductive prog (A : Type) : Type :=
| Ret (a : A)
| Raise (e : exn)
| Call {X : Type} (c : api_call X) (k : X -> prog A).

Arguments Ret {A} a.
Arguments Raise {A} e.
Arguments Call {A X} c k.

Fixpoint bind {A B : Type} (p : prog A) (f : A -> prog B) : prog B :=
  match p with
  | Ret a => f a
  | Raise e => Raise e
  | Call c k => Call c (fun x => bind (k x) f)
  end.

#[global] Instance prog_ret : MRet prog := @Ret.
#[global] Instance prog_bind : MBind prog := fun A B f p => bind p f.

Definition call {X : Type} (c : api_call X) : prog X := Call c Ret.

(** [o.attr] where [o] may be [None]. *)
Definition getattr {A : Type} (attr : string) (o : option A) : prog A :=
  match o with
  | Some a => Ret a
  | None => Raise (AttributeError "NoneType" attr)
  end.

(** [v.metadata] where [v] is decoded JSON: none of [dict], [list], [str],
    [int], [bool] and [None] has such an attribute, so the access raises
    whatever [v] holds. *)
Definition json_metadata {A : Type} (v : json) : prog A :=
  Raise (AttributeError (json_type v) "metadata").

(** [for x in l: body x] *)
Fixpoint for_each {A : Type} (l : list A) (body : A -> prog unit) : prog unit :=
  match l with
  | [] => Ret tt
  | x :: l' => bind (body x) (fun _ => for_each l' body)
  end.

(** A client answers each call with a value or an exception and moves the
    world (the cluster, the log, the file system) on. *)
Definition client (world : Type) : Type :=
  forall X : Type, api_call X -> world -> (exn + X) * world.

(** The [kubernetes] client in front of a server.  Modelled from the
    client library, which is not part of the repository: under client-side
    validation, the configuration that [config.load_kube_config()] leaves in
    force, a method called without a required parameter raises
    [ApiValueError] before anything is sent; every other call goes to the
    server. *)
Definition validated {world : Type} (server : client world) : client world :=
  fun X c =>
    match c in api_call X return world -> (exn + X) * world with
    | read_namespaced_job None _ => fun w =>
        (inl (ApiValueError
                "Missing the required parameter `name` when calling `read_namespaced_job`"), w)
    | read_namespaced_pod_log None _ => fun w =>
        (inl (ApiValueError
                "Missing the required parameter `name` when calling `read_namespaced_pod_log`"), w)
    | read_namespaced_job (Some n) ns => server _ (read_namespaced_job (Some n) ns)
    | read_namespaced_pod_log (Some n) ns => server _ (read_namespaced_pod_log (Some n) ns)
    | create_namespaced_job ns body => server _ (create_namespaced_job ns body)
    | create_namespaced_custom_object g v ns p body =>
        server _ (create_namespaced_custom_object g v ns p body)
    | list_namespaced_pod ns sel => server _ (list_namespaced_pod ns sel)
    | logger_debug msg => server _ (logger_debug msg)
    | write_file content filename => server _ (write_file content filename)
    end.

Record outcome (world A : Type) : Type := {
  result : exn + A;
  final : world;
  trace : list event;
}.

Arguments result {world A} o.
Arguments final {world A} o.
Arguments trace {world A} o.

Definition logged {world A : Type} (e : event) (o : outcome world A) : outcome world A :=
  {| result := result o; final := final o; trace := e :: trace o |}.

Fixpoint run {world A : Type} (cl : client world) (p : prog A) (w : world)
  : outcome world A :=
  match p with
  | Ret a => {| result := inr a; final := w; trace := [] |}
  | Raise e => {| result := inl e; final := w; trace := [] |}
  | Call c k =>
      match cl _ c w with
      | (inl e, w') => {| result := inl e; final := w'; trace := [ev c] |}
      | (inr x, w') => logged (ev c) (run cl (k x) w')
      end
  end.

(** ** The classes *)

(** *** [KubernetesObject] *)

Definition KubernetesObject_write_log (self : handle) (logfile : string) : prog unit :=
  Ret tt.

(** The property [jobprefix]:
    [("snakejob-%s-%s" % (self.job.name, self.job.jobid)).replace("_", "-")] *)
Definition jobprefix (self : handle) : string :=
  replace "_" "-"
    ("snakejob-" +:+ job_name (job self) +:+ "-" +:+ str (job_jobid (job self))).

(** *** [BatchJob] *)

Definition BatchJob_status (self : handle) : prog JobStatus :=
  j ← call (read_namespaced_job (jobname self) (namespace (executor_args self)));
  st ← getattr "failed" (j_status j);
  if bool_decide (failed st ≠ Some 0) then mret FAILED
  else if truthy_int (active st) then mret ACTIVE
  else if truthy_int (ready st) then mret READY
  else
    let succeeded := succeeded st in
    if truthy_int succeeded then
      sp ← getattr "completions" (j_spec j);
      if bool_decide (succeeded = completions sp) then mret SUCCEEDED
      else mret UNKNOWN
    else mret UNKNOWN.

Definition BatchJob_submit (self : handle) (body : k8s_object)
  : prog (k8s_object * handle) :=
  res ← call (create_namespaced_job (namespace (executor_args self)) body);
  m ← getattr "name" (j_metadata res);
  mret (JobObject res, set_jobname self (meta_name m)).

Definition BatchJob_write_log (self : handle) (logprefix : string) : prog unit :=
  let ns := namespace (executor_args self) in
  pods ← call (list_namespaced_pod ns ("job-name=" +:+ str_opt (jobname self)));
  for_each (items pods) (fun pod =>
    m ← getattr "name" (pod_metadata pod);
    log ← call (read_namespaced_pod_log (meta_name m) ns);
    m' ← getattr "name" (pod_metadata pod);
    let logfile := logprefix +:+ "-" +:+ str_opt (meta_name m') +:+ ".txt" in
    _ ← call (logger_debug ("Writing output to " +:+ logfile));
    call (write_file log logfile)).

Definition BatchJob_generate (self : handle) (image command : string)
    (args : list string) (working_dir : option string) (deadline : pyval)
    (environment : option (list (string * string))) : k8s_object :=
  let deadline := get (job_resources (job self)) "runtime" PyNone in
  let nodes := get (job_resources (job self)) "_nodes" PyNone in
  let cores := get (job_resources (job self)) "_cores" PyNone in
  let memory :=
    py_or (get (job_resources (job self)) "kueue.memory" (PyStr "200Mi")) (PyStr "200Mi") in
  let metadata :=
    {| meta_name := None;
       meta_generate_name := Some (jobprefix self);
       meta_namespace := None;
       meta_labels := {[ "kueue.x-k8s.io/queue-name" := queue_name (executor_args self) ]} |} in
  let environment :=
    match environment with
    | Some ((_ :: _) as d) => d
    | _ => []
    end in
  let environ :=
    fold_left
      (fun acc kv => acc ++ [ {| env_name := fst kv; env_value := snd kv |} ])
      environment [] in
  let container :=
    {| c_image := image;
       c_name := jobprefix self;
       c_command := [command];
       c_args := args;
       c_working_dir := working_dir;
       c_env := environ;
       c_resources := {[ "requests" := {[ "cpu" := cores; "memory" := memory ]} ]};
       c_active_deadline_seconds := if truthy deadline then deadline else PyNone |} in
  let template :=
    {| template_spec := {| containers := [container]; restartPolicy := "Never" |} |} in
  JobObject
    {| j_api_version := Some "batch/v1";
       j_kind := Some "Job";
       j_metadata := Some metadata;
       j_spec := Some {| parallelism := nodes; completions := Some 3;
                         suspend := Some true; template := Some template |};
       j_status := None |}.

(** *** [FluxMiniCluster] *)

(** The answer of the custom-objects API is decoded JSON, on which
    [result.metadata] raises: the assignment to [self.jobname] and the
    [return result] that follow in the source are never reached. *)
Definition FluxMiniCluster_submit (self : handle) (body : k8s_object)
  : prog (k8s_object * handle) :=
  res ← call (create_namespaced_custom_object
                "flux-framework.org" "v1alpha1"
                (namespace (executor_args self)) "miniclusters" body);
  json_metadata res.

Definition FluxMiniCluster_generate (self : handle) (image command : string)
    (args : list string) (working_dir : option string) (deadline : pyval)
    (environment : option (list (string * string))) : k8s_object :=
  let deadline := get (job_resources (job self)) "runtime" PyNone in
  let cores := get (job_resources (job self)) "_cores" PyNone in
  let nodes := get (job_resources (job self)) "_nodes" PyNone in
  let memory :=
    py_or (get (job_resources (job self)) "kueue.memory" (PyStr "200M1")) (PyStr "200M1") in
  let tasks :=
    py_or (get (job_resources (job self)) "kueue.tasks" (PyInt 1)) (PyInt 1) in
  let container :=
    {| mc_command := command +:+ " " +:+ join " " args;
       mc_environment := environment;
       mc_image := image;
       mc_resources := {[ "limits" := {[ "cpu" := cores; "memory" := memory ]} ]} |} in
  let spec :=
    {| ms_job_labels := {[ "kueue.x-k8s.io/queue-name" := queue_name (executor_args self) ]};
       ms_containers := [container];
       ms_working_dir := working_dir;
       ms_size := nodes;
       ms_tasks := tasks;
       ms_logging := {[ "quiet" := false ]};
       ms_deadline := if truthy deadline then deadline else PyNone |} in
  MiniClusterObject
    {| m_kind := "MiniCluster";
       m_api_version := "flux-framework.org/v1alpha1";
       m_metadata :=
         Some {| meta_name := None;
                 meta_generate_name := jobname self;
                 meta_namespace := Some (namespace (executor_args self));
                 meta_labels := ∅ |};
       m_spec := spec |}.

(** ** Method resolution *)

Definition class_name (c : class) : string :=
  match c with
  | KubernetesObject => "KubernetesObject"
  | BatchJob => "BatchJob"
  | FluxMiniCluster => "FluxMiniCluster"
  end.

(** Both subclasses derive from [KubernetesObject] alone. *)
Definition mro (c : class) : list class :=
  match c with
  | KubernetesObject => [KubernetesObject]
  | BatchJob => [BatchJob; KubernetesObject]
  | FluxMiniCluster => [FluxMiniCluster; KubernetesObject]
  end.

Definition generate_type : Type :=
  handle -> string -> string -> list string -> option string -> pyval ->
  option (list (string * string)) -> k8s_object.

(** The methods a class statement defines itself. *)
Record class_body : Type := {
  def_status : option (handle -> prog JobStatus);
  def_submit : option (handle -> k8s_object -> prog (k8s_object * handle));
  def_write_log : option (handle -> string -> prog unit);
  def_generate : option generate_type;
}.

Definition body_of (c : class) : class_body :=
  match c with
  | KubernetesObject =>
      {| def_status := None;
         def_submit := None;
         def_write_log := Some KubernetesObject_write_log;
         def_generate := None |}
  | BatchJob =>
      {| def_status := Some BatchJob_status;
         def_submit := Some BatchJob_submit;
         def_write_log := Some BatchJob_write_log;
         def_generate := Some BatchJob_generate |}
  | FluxMiniCluster =>
      {| def_status := None;
         def_submit := Some FluxMiniCluster_submit;
         def_write_log := None;
         def_generate := Some FluxMiniCluster_generate |}
  end.

Fixpoint first_def {M : Type} (sel : class_body -> option M) (l : list class)
  : option M :=
  match l with
  | [] => None
  | c :: l' =>
      match sel (body_of c) with
      | Some m => Some m
      | None => first_def sel l'
      end
  end.

Definition lookup_method {M : Type} (sel : class_body -> option M) (c : class)
  : option M :=
  first_def sel (mro c).

Definition no_attribute {A : Type} (self : handle) (attr : string) : prog A :=
  Raise (AttributeError (class_name (cls self)) attr).

(** [self.status()] *)
Definition status (self : handle) : prog JobStatus :=
  match lookup_method def_status (cls self) with
  | Some m => m self
  | None => no_attribute self "status"
  end.

(** [self.submit(body)]; the second component is [self] afterwards. *)
Definition submit (self : handle) (body : k8s_object) : prog (k8s_object * handle) :=
  match lookup_method def_submit (cls self) with
  | Some m => m self body
  | None => no_attribute self "submit"
  end.

(** [self.write_log(logprefix)] *)
Definition write_log (self : handle) (logprefix : string) : prog unit :=
  match lookup_method def_write_log (cls self) with
  | Some m => m self logprefix
  | None => no_attribute self "write_log"
  end.

(** [self.generate(image, command, args, working_dir, deadline, environment)] *)
Definition generate (self : handle) (image command : string)
    (args : list string) (working_dir : option string) (deadline : pyval)
    (environment : option (list (string * string))) : prog k8s_object :=
  match lookup_method def_generate (cls self) with
  | Some m => Ret (m self image command args working_dir deadline environment)
  | None => no_attribute self "generate"
  end.

(** ** An in-memory cluster

    A client on which the methods can be run: jobs are kept by name, a
    created object is named by its [generateName] followed by a suffix, and
    a read without a name is rejected before it is sent, as the [kubernetes]
    client does with its client-side validation. *)

Module FakeCluster.

Definition world : Type := gmap string V1Job.

Definition suffix : string := "x7k2q".

Definition with_name (n : string) (m : V1ObjectMeta) : V1ObjectMeta :=
  {| meta_name := Some n;
     meta_generate_name := meta_generate_name m;
     meta_namespace := meta_namespace m;
     meta_labels := meta_labels m |}.

Definition unprocessable {X : Type} (w : world) : (exn + X) * world :=
  (inl (ApiException 422 "Unprocessable Entity"), w).

Definition not_found {X : Type} (w : world) : (exn + X) * world :=
  (inl (ApiException 404 "Not Found"), w).

Definition create_job (body : k8s_object) (w : world) : (exn + V1Job) * world :=
  match body with
  | JobObject j =>
      match j_metadata j with
      | Some m =>
          match meta_generate_name m with
          | Some g =>
              let n := g +:+ suffix in
              let j' := {| j_api_version := j_api_version j; j_kind := j_kind j;
                           j_metadata := Some (with_name n m);
                           j_spec := j_spec j;
                           j_status := Some {| failed := None; active := None;
                                               ready := None; succeeded := None |} |} in
              (inr j', <[n := j']> w)
          | None => unprocessable w
          end
      | None => unprocessable w
      end
  | MiniClusterObject _ => unprocessable w
  end.

(** The created MiniCluster as the server sends it back, decoded. *)
Definition created_minicluster (n : string) (mc : MiniCluster) (m : V1ObjectMeta) : json :=
  JDict [("apiVersion", JStr (m_api_version mc));
         ("kind", JStr (m_kind mc));
         ("metadata", JDict [("name", JStr n);
                             ("namespace", JStr (default "default" (meta_namespace m)))])].

Definition create_minicluster (body : k8s_object) (w : world)
  : (exn + json) * world :=
  match body with
  | MiniClusterObject mc =>
      match m_metadata mc with
      | Some m =>
          match meta_generate_name m with
          | Some g => (inr (created_minicluster (g +:+ suffix) mc m), w)
          | None => unprocessable w
          end
      | None => unprocessable w
      end
  | JobObject _ => unprocessable w
  end.

Definition answer : client world :=
  fun X c =>
    match c in api_call X return world -> (exn + X) * world with
    | read_namespaced_job None _ => fun w =>
        (inl (ApiValueError
                "Missing the required parameter `name` when calling `read_namespaced_job`"), w)
    | read_namespaced_job (Some n) _ => fun w =>
        match w !! n with
        | Some j => (inr j, w)
        | None => not_found w
        end
    | create_namespaced_job _ body => create_job body
    | create_namespaced_custom_object _ _ _ _ body => create_minicluster body
    | list_namespaced_pod _ _ => fun w => (inr {| items := [] |}, w)
    | read_namespaced_pod_log _ _ => fun w => not_found w
    | logger_debug _ => fun w => (inr tt, w)
    | write_file _ _ => fun w => (inr tt, w)
    end.

Definition settings : ExecutorSettings :=
  {| namespace := "default"; queue_name := "user-queue" |}.

Definition align_reads : Job :=
  {| job_name := "align_reads"; job_jobid := PyInt 42; job_resources := ∅ |}.

(** A job as the cluster reports it, with the given counters. *)
Definition reported (f a r s c : option Z) : V1Job :=
  {| j_api_version := Some "batch/v1"; j_kind := Some "Job";
     j_metadata := None;
     j_spec := Some {| parallelism := PyInt 1; completions := c;
                       suspend := Some false; template := None |};
     j_status := Some {| failed := f; active := a; ready := r; succeeded := s |} |}.

(** A batch handle after a submission, and a cluster holding its job. *)
Definition submitted : handle :=
  set_jobname (new BatchJob align_reads settings) (Some "snakejob-align-reads-42x7k2q").

Definition cluster_with (j : V1Job) : world :=
  {[ "snakejob-align-reads-42x7k2q" := j ]}.

(** Objects for [align_reads]: the one the batch generator builds, and a
    MiniCluster that the cluster accepts.  The cluster names an object only
    if it carries a [generateName], which the MiniCluster generator takes
    from [jobname]: the second object is the one a caller gets after setting
    that attribute to the prefix. *)
Definition batch_body : k8s_object :=
  BatchJob_generate (new BatchJob align_reads settings)
    "snakemake/snakemake" "snakemake" ["--cores"; "1"] None PyNone None.

Definition minicluster_body : k8s_object :=
  FluxMiniCluster_generate
    (set_jobname (new FluxMiniCluster align_reads settings) (Some "snakejob-align-reads-42"))
    "snakemake/snakemake" "snakemake" ["--cores"; "1"] None PyNone None.

End FakeCluster.

(** ** Readings of the generated objects *)

(** [o.metadata.generate_name] *)
Definition generate_name_of (o : k8s_object) : option string :=
  metadata_of o ≫= meta_generate_name.

(** [o.spec.completions] of a batch job. *)
Definition declared_completions (o : k8s_object) : option Z :=
  match o with
  | JobObject j => j_spec j ≫= completions
  | MiniClusterObject _ => None
  end.

(** [d[section][key]] of a container's [resources]. *)
Definition resource (d : gmap string (gmap string pyval)) (section key : string)
  : option pyval :=
  d !! section ≫= (.!! key).

(** [self] after a call of [submit], when it returned. *)
Definition handle_after {world : Type} (o : outcome world (k8s_object * handle))
  : option handle :=
  match result o with
  | inr x => Some (snd x)
  | inl _ => None
  end.

(** ** The statements of the specification that the code is compared with *)

(** The status mapping in the specification's words: the fourth rule asks
    for a succeeded count that is present and equal to the declared
    completions. *)
Definition status_as_specified (st : V1JobStatus) (declared : option Z) : JobStatus :=
  if bool_decide (failed st ≠ Some 0) then FAILED
  else if truthy_int (active st) then ACTIVE
  else if truthy_int (ready st) then READY
  else
    match succeeded st with
    | Some n => if bool_decide (Some n = declared) then SUCCEEDED else UNKNOWN
    | None => UNKNOWN
    end.

(** The errors that report a call made before its precondition holds: the
    client's refusal of a call whose required parameter is missing.  A
    missing attribute and an answer of the server report something else. *)
Definition precondition_violation (e : exn) : bool :=
  match e with
  | ApiValueError _ => true
  | AttributeError _ _ => false
  | ApiException _ _ => false
  end.

(** [o.spec.template["spec"]["containers"][0]] of a batch job. *)
Definition batch_container (o : k8s_object) : option V1Container :=
  match o with
  | JobObject j =>
      sp ← j_spec j; t ← template sp; head (containers (template_spec t))
  | MiniClusterObject _ => None
  end.

(** [o.spec.containers[0]] of a MiniCluster. *)
Definition minicluster_container (o : k8s_object) : option MiniClusterContainer :=
  match o with
  | MiniClusterObject m => head (ms_containers (m_spec m))
  | JobObject _ => None
  end.

(** [o.spec] of a MiniCluster. *)
Definition minicluster_spec (o : k8s_object) : option MiniClusterSpec :=
  match o with
  | MiniClusterObject m => Some (m_spec m)
  | JobObject _ => None
  end.

(** ** Readings of the calls made *)

(** The file [write_log] names for a pod:
    [f"{logprefix}-{pod.metadata.name}.txt"] *)
Definition log_file (logprefix : string) (pod : V1Pod) : string :=
  logprefix +:+ "-" +:+ str_opt (pod_metadata pod ≫= meta_name) +:+ ".txt".

(** The body of the loop of [BatchJob.write_log], for one pod. *)
Definition write_pod_log (ns logprefix : string) (pod : V1Pod) : prog unit :=
  m ← getattr "name" (pod_metadata pod);
  log ← call (read_namespaced_pod_log (meta_name m) ns);
  m' ← getattr "name" (pod_metadata pod);
  let logfile := logprefix +:+ "-" +:+ str_opt (meta_name m') +:+ ".txt" in
  _ ← call (logger_debug ("Writing output to " +:+ logfile));
  call (write_file log logfile).

(** The content and the name of the file a call asks to write, if it asks
    for one. *)
Definition written_file (e : event) : option (string * string) :=
  match projT2 e with
  | write_file content filename => Some (content, filename)
  | _ => None
  end.

Definition written_files (t : list event) : list (string * string) :=
  omap written_file t.

(** The calls [write_log] is made of: listing pods, reading a log, logging
    and writing a file; the others create or read a job. *)
Definition log_call (e : event) : bool :=
  match projT2 e with
  | list_namespaced_pod _ _ => true
  | read_namespaced_pod_log _ _ => true
  | logger_debug _ => true
  | write_file _ _ => true
  | _ => false
  end.

(** A client that never refuses to read a log, to log and to write. *)
Definition serves_logs {world : Type} (cl : client world) : Prop :=
  (∀ n ns w, ∃ log w', cl _ (read_namespaced_pod_log n ns) w = (inr log, w'))
  ∧ (∀ msg w, ∃ w', cl _ (logger_debug msg) w = (inr tt, w'))
  ∧ (∀ content filename w, ∃ w', cl _ (write_file content filename) w = (inr tt, w')).

(** ** A cluster with pods and a file system

    A second client on which [write_log] can be run: the job of
    [FakeCluster.submitted] has two pods, every pod has a log, and the world
    is the list of the files written so far, oldest first. *)

Module FakeLogs.

Definition world : Type := list (string * string).

Definition pod (n : string) : V1Pod :=
  {| pod_metadata := Some {| meta_name := Some n; meta_generate_name := None;
                             meta_namespace := Some "default"; meta_labels := ∅ |} |}.

Definition pods : list V1Pod :=
  [pod "snakejob-align-reads-42x7k2q-8pzvd"; pod "snakejob-align-reads-42x7k2q-tq4xm"].

Definition forbidden {X : Type} (w : world) : (exn + X) * world :=
  (inl (ApiException 403 "Forbidden"), w).

Definition answer : client world :=
  fun X c =>
    match c in api_call X return world -> (exn + X) * world with
    | list_namespaced_pod _ sel => fun w =>
        (inr {| items := if String.eqb sel "job-name=snakejob-align-reads-42x7k2q"
                         then pods else [] |}, w)
    | read_namespaced_pod_log n _ => fun w => (inr ("log of " +:+ str_opt n), w)
    | logger_debug _ => fun w => (inr tt, w)
    | write_file content filename => fun w => (inr tt, w ++ [(filename, content)])
    | read_namespaced_job _ _ => fun w => forbidden w
    | create_namespaced_job _ _ => fun w => forbidden w
    | create_namespaced_custom_object _ _ _ _ _ => fun w => forbidden w
    end.

(** A cluster that cannot be reached: every call raises. *)
Definition unreachable : client world :=
  fun X _ w => (inl (ApiException 503 "Service Unavailable"), w).

(** Jobs as the cluster may report them: without a spec, without a status. *)
Definition without_spec : V1Job :=
  {| j_api_version := Some "batch/v1"; j_kind := Some "Job"; j_metadata := None;
     j_spec := None;
     j_status := Some {| failed := Some 0; active := None; ready := None;
                         succeeded := Some 3 |} |}.

Definition without_status : V1Job :=
  {| j_api_version := Some "batch/v1"; j_kind := Some "Job"; j_metadata := None;
     j_spec := None; j_status := None |}.

(** A job that sets every resource the generators read. *)
Definition assemble : Job :=
  {| job_name := "assemble";
     job_jobid := PyInt 7;
     job_resources := {[ "_cores" := PyInt 8; "_nodes" := PyInt 2;
                         "runtime" := PyInt 3600;
                         "kueue.memory" := PyStr "2Gi";
                         "kueue.tasks" := PyInt 4 ]} |}.

End FakeLogs.

(** ** Strings *)

Lemma replace_length (old new : ascii) (s : string) :
  String.length (replace old new s) = String.length s.
Proof.
  induction s as [|c s IH]; simpl; [reflexivity|].
  now rewrite IH.
Qed.

Lemma replace_get (old new : ascii) (s : string) (i : nat) :
  String.get i (replace old new s)
  = (λ c, if Ascii.eqb c old then new else c) <$> String.get i s.
Proof.
  revert i. induction s as [|c s IH]; intros i; simpl; [reflexivity|].
  destruct i as [|i]; simpl; [reflexivity|]. apply IH.
Qed.

(** No occurrence of [old] is left, unless [new] is [old] itself. *)
Lemma replace_none_left (old new : ascii) (s : string) (i : nat) :
  new ≠ old → String.get i (replace old new s) ≠ Some old.
Proof.
  intros Hne. rewrite replace_get.
  destruct (String.get i s) as [c|]; simpl; [|discriminate].
  destruct (Ascii.eqb c old) eqn:E; intros [= H].
  - now apply Hne.
  - apply Ascii.eqb_neq in E. now apply E.
Qed.

Lemma join_nil (sep : string) : join sep [] = "".
Proof. reflexivity. Qed.

Lemma join_one (sep a : string) : join sep [a] = a.
Proof. reflexivity. Qed.

Lemma join_more (sep a b : string) (l : list string) :
  join sep (a :: b :: l) = a +:+ sep +:+ join sep (b :: l).
Proof. reflexivity. Qed.

(** ** Programs *)

Section Run.

Context {world : Type} (cl : client world).

Lemma run_call_ok {X A : Type} (c : api_call X) (k : X -> prog A) (w w' : world) (x : X) :
  cl X c w = (inr x, w') →
  run cl (call c ≫= k) w = logged (ev c) (run cl (k x) w').
Proof. intros H. simpl. now rewrite H. Qed.

Lemma run_call_err {X A : Type} (c : api_call X) (k : X -> prog A) (w w' : world) (e : exn) :
  cl X c w = (inl e, w') →
  run cl (call c ≫= k) w = {| result := inl e; final := w'; trace := [ev c] |}.
Proof. intros H. simpl. now rewrite H. Qed.

(** The trace of a sequence is the trace of its first part followed, when
    that part returns, by the trace of the rest. *)
Lemma run_bind {A B : Type} (p : prog A) (f : A -> prog B) (w : world) :
  run cl (bind p f) w
  = match result (run cl p w) with
    | inl e => {| result := inl e; final := final (run cl p w); trace := trace (run cl p w) |}
    | inr a =>
        let o := run cl (f a) (final (run cl p w)) in
        {| result := result o; final := final o; trace := trace (run cl p w) ++ trace o |}
    end.
Proof.
  revert w. induction p as [a|e|X c k IH]; intros w; simpl.
  - now destruct (run cl (f a) w).
  - reflexivity.
  - destruct (cl X c w) as [[e|x] w']; simpl; [reflexivity|].
    rewrite IH. now destruct (result (run cl (k x) w')).
Qed.

End Run.

(** ** Method resolution *)

Lemma resolve_status :
  lookup_method def_status BatchJob = Some BatchJob_status
  ∧ lookup_method def_status FluxMiniCluster = None
  ∧ lookup_method def_status KubernetesObject = None.
Proof. repeat split. Qed.

Lemma resolve_write_log :
  lookup_method def_write_log BatchJob = Some BatchJob_write_log
  ∧ lookup_method def_write_log FluxMiniCluster = Some KubernetesObject_write_log
  ∧ lookup_method def_write_log KubernetesObject = Some KubernetesObject_write_log.
Proof. repeat split. Qed.

Lemma resolve_submit :
  lookup_method def_submit BatchJob = Some BatchJob_submit
  ∧ lookup_method def_submit FluxMiniCluster = Some FluxMiniCluster_submit.
Proof. repeat split. Qed.

Lemma resolve_generate :
  lookup_method def_generate BatchJob = Some BatchJob_generate
  ∧ lookup_method def_generate FluxMiniCluster = Some FluxMiniCluster_generate.
Proof. repeat split. Qed.

Lemma truthy_int_true (o : option Z) :
  truthy_int o = true ↔ ∃ n, o = Some n ∧ n ≠ 0.
Proof.
  destruct o as [n|]; simpl.
  - rewrite negb_true_iff, Z.eqb_neq. split; [eauto|]. now intros (m & [= ->] & H).
  - split; [discriminate|]. now intros (m & [=] & _).
Qed.

(** ** The status of a batch job *)

Section Status.

Context {world : Type} (cl : client world).

(** What [status] returns once the cluster has answered the read with [j]. *)
Lemma status_result (self : handle) (w w' : world) (j : V1Job) (st : V1JobStatus) :
  cls self = BatchJob →
  cl _ (read_namespaced_job (jobname self) (namespace (executor_args self))) w = (inr j, w') →
  j_status j = Some st →
  result (run cl (status self) w)
  = if bool_decide (failed st ≠ Some 0) then inr FAILED
    else if truthy_int (active st) then inr ACTIVE
    else if truthy_int (ready st) then inr READY
    else if truthy_int (succeeded st) then
      match j_spec j with
      | Some sp =>
          if bool_decide (succeeded st = completions sp) then inr SUCCEEDED
          else inr UNKNOWN
      | None => inl (AttributeError "NoneType" "completions")
      end
    else inr UNKNOWN.
Proof.
  intros Hc Hread Hst. destruct self as [c jb a n]; simpl in *; subst c.
  unfold status, lookup_method; simpl.
  rewrite Hread; simpl. rewrite Hst; simpl.
  destruct (bool_decide (failed st ≠ Some 0)); [reflexivity|].
  destruct (truthy_int (active st)); [reflexivity|].
  destruct (truthy_int (ready st)); [reflexivity|].
  destruct (truthy_int (succeeded st)); [|reflexivity].
  destruct (j_spec j) as [sp|]; simpl; [|reflexivity].
  now destruct (bool_decide (succeeded st = completions sp)).
Qed.

(** C1 (amended): once the cluster has answered with a job that has a
    status and a spec, [BatchJob.status()] returns exactly one [JobStatus],
    chosen by the first rule that matches: a failed count other than [0]
    gives [FAILED]; else a truthy active count gives [ACTIVE]; else a truthy
    ready count gives [READY]; else a succeeded count that is truthy (present
    and not [0]) and equal to the declared completions gives [SUCCEEDED];
    else [UNKNOWN].  So failed=1 with active=1 gives [FAILED], succeeded=3
    with completions=3 and the other counts 0 gives [SUCCEEDED], and
    succeeded=2 with completions=3 gives [UNKNOWN]. *)
Theorem status_priority (self : handle) (w w' : world) (j : V1Job)
    (st : V1JobStatus) (sp : V1JobSpec) :
  cls self = BatchJob →
  cl _ (read_namespaced_job (jobname self) (namespace (executor_args self))) w = (inr j, w') →
  j_status j = Some st →
  j_spec j = Some sp →
  let r := result (run cl (status self) w) in
  let all_succeeded := ∃ n, n ≠ 0 ∧ succeeded st = Some n ∧ completions sp = Some n in
  (∃ s, r = inr s)
  ∧ (failed st ≠ Some 0 → r = inr FAILED)
  ∧ (failed st = Some 0 → truthy_int (active st) = true → r = inr ACTIVE)
  ∧ (failed st = Some 0 → truthy_int (active st) = false →
     truthy_int (ready st) = true → r = inr READY)
  ∧ (failed st = Some 0 → truthy_int (active st) = false →
     truthy_int (ready st) = false → all_succeeded → r = inr SUCCEEDED)
  ∧ (failed st = Some 0 → truthy_int (active st) = false →
     truthy_int (ready st) = false → ¬ all_succeeded → r = inr UNKNOWN)
  ∧ (failed st = Some 1 → active st = Some 1 → r = inr FAILED)
  ∧ (failed st = Some 0 → active st = Some 0 → ready st = Some 0 →
     succeeded st = Some 3 → completions sp = Some 3 → r = inr SUCCEEDED)
  ∧ (failed st = Some 0 → active st = Some 0 → ready st = Some 0 →
     succeeded st = Some 2 → completions sp = Some 3 → r = inr UNKNOWN).
Proof.
  intros Hc Hread Hst Hsp r all_succeeded.
  assert (Hr := status_result self w w' j st Hc Hread Hst).
  fold r in Hr. rewrite Hsp in Hr. clearbody r.
  assert (Hf : failed st ≠ Some 0 → r = inr FAILED).
  { intros H. now rewrite Hr, bool_decide_eq_true_2. }
  assert (Hs : failed st = Some 0 → truthy_int (active st) = false →
               truthy_int (ready st) = false → all_succeeded → r = inr SUCCEEDED).
  { intros H Ha Hy (n & Hn & Hsu & Hco).
    rewrite Hr, bool_decide_eq_false_2, Ha, Hy by (now intros []).
    rewrite Hsu, Hco; simpl. apply Z.eqb_neq in Hn. rewrite Hn; simpl.
    now rewrite bool_decide_eq_true_2. }
  assert (Hu : failed st = Some 0 → truthy_int (active st) = false →
               truthy_int (ready st) = false → ¬ all_succeeded → r = inr UNKNOWN).
  { intros H Ha Hy Hno.
    rewrite Hr, bool_decide_eq_false_2, Ha, Hy by (now intros []).
    destruct (truthy_int (succeeded st)) eqn:Et; [|reflexivity].
    apply truthy_int_true in Et as (n & Hsu & Hn).
    rewrite bool_decide_eq_false_2; [reflexivity|].
    intros Heq. apply Hno. exists n. repeat split; congruence. }
  repeat split.
  - rewrite Hr. repeat case_match; eauto.
  - exact Hf.
  - intros H Ha. now rewrite Hr, bool_decide_eq_false_2, Ha by (now intros []).
  - intros H Ha Hy. now rewrite Hr, bool_decide_eq_false_2, Ha, Hy by (now intros []).
  - exact Hs.
  - exact Hu.
  - intros H _. apply Hf. now rewrite H.
  - intros H Ha Hy Hsu Hco. apply Hs; [exact H|now rewrite Ha|now rewrite Hy|].
    exists 3. now repeat split.
  - intros H Ha Hy Hsu Hco. apply Hu; [exact H|now rewrite Ha|now rewrite Hy|].
    intros (n & _ & H1 & H2). congruence.
Qed.

(** C8: when the cluster reports no failed count at all, [BatchJob.status()]
    returns [FAILED], whatever the other counts and the declared completions
    are: an absent count is not equal to [0]. *)
Theorem status_failed_absent (self : handle) (w w' : world) (j : V1Job)
    (st : V1JobStatus) :
  cls self = BatchJob →
  cl _ (read_namespaced_job (jobname self) (namespace (executor_args self))) w = (inr j, w') →
  j_status j = Some st →
  failed st = None →
  result (run cl (status self) w) = inr FAILED.
Proof.
  intros Hc Hread Hst Hf.
  rewrite (status_result self w w' j st Hc Hread Hst), Hf.
  now rewrite bool_decide_eq_true_2.
Qed.

End Status.

Module StatusExamples.

Import FakeCluster.

(** succeeded=3 of completions=3, nothing failed, active or ready. *)
Lemma status_priority_witness :
  let j := reported (Some 0) (Some 0) (Some 0) (Some 3) (Some 3) in
  cls submitted = BatchJob
  ∧ answer _ (read_namespaced_job (jobname submitted) (namespace (executor_args submitted)))
      (cluster_with j) = (inr j, cluster_with j)
  ∧ result (run answer (status submitted) (cluster_with j)) = inr SUCCEEDED.
Proof.
  intros j. split; [reflexivity|]. split; [reflexivity|].
  refine (proj1 (proj2 (proj2 (proj2 (proj2 (proj2 (proj2 (proj2
    (status_priority answer submitted (cluster_with j) (cluster_with j) j _ _
       eq_refl eq_refl eq_refl eq_refl)))))))) _ _ _ _ _); reflexivity.
Defined.

(** C1 as stated fails where the succeeded count is present, equal to the
    declared completions, and [0]: the specification's rule answers
    [SUCCEEDED], the method [UNKNOWN]. *)
Lemma status_zero_completions :
  let j := reported (Some 0) (Some 0) (Some 0) (Some 0) (Some 0) in
  let st := {| failed := Some 0; active := Some 0; ready := Some 0; succeeded := Some 0 |} in
  j_status j = Some st
  ∧ (j_spec j ≫= completions) = Some 0
  ∧ status_as_specified st (Some 0) = SUCCEEDED
  ∧ result (run answer (status submitted) (cluster_with j)) = inr UNKNOWN.
Proof. repeat split. Qed.

(** No failed count, succeeded=3 of completions=3. *)
Lemma status_failed_absent_witness :
  let j := reported None (Some 0) (Some 0) (Some 3) (Some 3) in
  failed {| failed := None; active := Some 0; ready := Some 0; succeeded := Some 3 |} = None
  ∧ result (run answer (status submitted) (cluster_with j)) = inr FAILED.
Proof.
  intros j. split; [reflexivity|].
  exact (status_failed_absent answer submitted (cluster_with j) (cluster_with j) j _
           eq_refl eq_refl eq_refl eq_refl).
Defined.

End StatusExamples.

(** ** Submission *)

(** What [submit] does on a batch handle: one call to the typed batch-job
    API, passing [body] in the handle's namespace; when the cluster answers
    with the created object, the name in its metadata becomes the handle's
    [jobname], nothing else of the handle changes, and the created object is
    returned. *)
Lemma BatchJob_submit_records_name {world : Type} (cl : client world) (self : handle)
    (body : k8s_object) (w w' : world) (res : V1Job) (m : V1ObjectMeta) :
  cls self = BatchJob →
  cl _ (create_namespaced_job (namespace (executor_args self)) body) w = (inr res, w') →
  j_metadata res = Some m →
  run cl (submit self body) w
  = {| result := inr (JobObject res, set_jobname self (meta_name m));
       final := w';
       trace := [ev (create_namespaced_job (namespace (executor_args self)) body)] |}.
Proof.
  destruct self as [c jb a n]; simpl. intros -> Hcall Hm.
  unfold submit, lookup_method; simpl. rewrite Hcall; simpl. now rewrite Hm.
Qed.

(** What [submit] does on a MiniCluster handle: one call to the generic
    custom-resource API (group flux-framework.org, version v1alpha1, plural
    miniclusters), passing [body] in the handle's namespace; when the cluster
    answers, the object exists on the cluster and [submit] raises on the
    answer. *)
Lemma FluxMiniCluster_submit_raises {world : Type} (cl : client world) (self : handle)
    (body : k8s_object) (w w' : world) (res : json) :
  cls self = FluxMiniCluster →
  cl _ (create_namespaced_custom_object "flux-framework.org" "v1alpha1"
          (namespace (executor_args self)) "miniclusters" body) w = (inr res, w') →
  run cl (submit self body) w
  = {| result := inl (AttributeError (json_type res) "metadata");
       final := w';
       trace := [ev (create_namespaced_custom_object "flux-framework.org" "v1alpha1"
                       (namespace (executor_args self)) "miniclusters" body)] |}.
Proof.
  destruct self as [c jb a n]; simpl. intros -> Hcall.
  unfold submit, lookup_method; simpl. now rewrite Hcall.
Qed.

(** C6 (the code departs from it): for the job align_reads the batch handle
    sends the object to the typed batch-job API, records the name the cluster
    assigned and returns the created object; the MiniCluster handle sends its
    object to the custom-resource API, the cluster accepts and answers, and
    [submit] then raises an [AttributeError] on the answer, a [dict]: no name
    is recorded and nothing is returned.  No client, object or state of the
    handle makes [submit] of a [FluxMiniCluster] return. *)
Theorem submit_align_reads :
  let batch := new BatchJob FakeCluster.align_reads FakeCluster.settings in
  let flux := new FluxMiniCluster FakeCluster.align_reads FakeCluster.settings in
  let create :=
    create_namespaced_custom_object "flux-framework.org" "v1alpha1" "default"
      "miniclusters" FakeCluster.minicluster_body in
  (∃ created,
     run FakeCluster.answer (submit batch FakeCluster.batch_body) ∅
     = {| result := inr (JobObject created,
                         set_jobname batch (Some "snakejob-align-reads-42x7k2q"));
          final := {[ "snakejob-align-reads-42x7k2q" := created ]};
          trace := [ev (create_namespaced_job "default" FakeCluster.batch_body)] |})
  ∧ (∃ answered,
       FakeCluster.answer _ create ∅ = (inr (JDict answered), ∅)
       ∧ run FakeCluster.answer (submit flux FakeCluster.minicluster_body) ∅
         = {| result := inl (AttributeError "dict" "metadata");
              final := ∅; trace := [ev create] |})
  ∧ handle_after (run FakeCluster.answer (submit flux FakeCluster.minicluster_body) ∅)
    = None
  ∧ ∀ (world : Type) (cl : client world) (j : Job) (a : ExecutorSettings)
      (n : option string) (body : k8s_object) (w : world),
      handle_after (run cl (submit (set_jobname (new FluxMiniCluster j a) n) body) w)
      = None.
Proof.
  repeat split.
  - eexists. reflexivity.
  - eexists. split; reflexivity.
  - intros world cl j a n body w. unfold handle_after, submit, lookup_method; simpl.
    now destruct (cl json _ w) as [[e|res] w'].
Qed.

(** A failed creation leaves the handle as it was: the exception leaves
    [submit] before the assignment. *)
Lemma submit_failure {world : Type} (cl : client world) (self : handle)
    (body : k8s_object) (w w' : world) (e : exn) :
  cls self = BatchJob →
  cl _ (create_namespaced_job (namespace (executor_args self)) body) w = (inl e, w') →
  result (run cl (submit self body) w) = inl e.
Proof.
  destruct self as [c jb a n]; simpl. intros -> Hcall.
  unfold submit, lookup_method; simpl. now rewrite Hcall.
Qed.

(** ** Status before submission *)

(** C7 (amended): on a [BatchJob] whose [jobname] is unset, [status()]
    fails with a precondition-violation error and returns no [JobStatus]:
    whatever the server, the [kubernetes] client refuses the read call for
    want of the required name, before anything is sent.  [FluxMiniCluster]
    has no [status] method: on it the call fails with an [AttributeError],
    before any call to the cluster, whether or not [submit()] has been
    called. *)
Theorem status_before_submit {world : Type} (server : client world) (self : handle)
    (w : world) :
  (cls self = BatchJob → jobname self = None →
   let e := ApiValueError
              "Missing the required parameter `name` when calling `read_namespaced_job`" in
   precondition_violation e = true
   ∧ run (validated server) (status self) w
     = {| result := inl e; final := w;
          trace := [ev (read_namespaced_job None (namespace (executor_args self)))] |})
  ∧ (cls self = FluxMiniCluster → ∀ cl : client world,
     run cl (status self) w
     = {| result := inl (AttributeError "FluxMiniCluster" "status");
          final := w; trace := [] |}).
Proof.
  destruct self as [c jb a n]; simpl. split.
  - intros -> ->. split; reflexivity.
  - intros -> cl. reflexivity.
Qed.

(** ** Logs *)

(** C10: [FluxMiniCluster] defines no [write_log] of its own and inherits
    the one of [KubernetesObject], which does nothing: for every log prefix
    and every state of the handle the call returns at once, having made no
    call (no pod listed, no log read, no file written) and having changed
    nothing. *)
Theorem write_log_FluxMiniCluster (self : handle) (logprefix : string) :
  cls self = FluxMiniCluster →
  def_write_log (body_of FluxMiniCluster) = None
  ∧ lookup_method def_write_log (cls self) = Some KubernetesObject_write_log
  ∧ write_log self logprefix = Ret tt
  ∧ ∀ (world : Type) (cl : client world) (w : world),
      run cl (write_log self logprefix) w
      = {| result := inr tt; final := w; trace := [] |}.
Proof.
  destruct self as [c jb a n]; simpl. intros ->. repeat split.
Qed.

(** By contrast the [write_log] of [BatchJob] starts by listing the pods of
    the job. *)
Lemma write_log_BatchJob_lists_pods {world : Type} (cl : client world)
    (self : handle) (logprefix : string) (w : world) :
  cls self = BatchJob →
  ∃ rest, trace (run cl (write_log self logprefix) w)
          = ev (list_namespaced_pod (namespace (executor_args self))
                  ("job-name=" +:+ str_opt (jobname self))) :: rest.
Proof.
  destruct self as [c jb a n]; simpl. intros ->.
  unfold write_log, lookup_method; simpl.
  destruct (cl _ _ w) as [[e|pods] w']; simpl; eauto.
Qed.

(** X19: when no pod carries the label, [write_log] of [BatchJob] ends after the
    listing: no log is read and no file written. *)
Lemma write_log_BatchJob_no_pods {world : Type} (cl : client world)
    (self : handle) (logprefix : string) (w w' : world) :
  cls self = BatchJob →
  cl _ (list_namespaced_pod (namespace (executor_args self))
          ("job-name=" +:+ str_opt (jobname self))) w = (inr {| items := [] |}, w') →
  run cl (write_log self logprefix) w
  = {| result := inr tt; final := w';
       trace := [ev (list_namespaced_pod (namespace (executor_args self))
                       ("job-name=" +:+ str_opt (jobname self)))] |}.
Proof.
  destruct self as [c jb a n]; simpl. intros -> Hcall.
  unfold write_log, lookup_method; simpl. now rewrite Hcall.
Qed.

Module EffectExamples.

Import FakeCluster.

Lemma BatchJob_submit_records_name_witness :
  cls (new BatchJob align_reads settings) = BatchJob
  ∧ jobname <$> handle_after
      (run answer (submit (new BatchJob align_reads settings) batch_body) ∅)
    = Some (Some "snakejob-align-reads-42x7k2q").
Proof.
  split; [reflexivity|].
  rewrite (BatchJob_submit_records_name answer (new BatchJob align_reads settings)
             batch_body ∅ _ _ _ eq_refl eq_refl eq_refl).
  reflexivity.
Defined.

(** An unsubmitted batch handle in front of the cluster of [FakeCluster],
    and in front of a cluster that cannot be reached. *)
Lemma status_before_submit_witness :
  jobname (new BatchJob align_reads settings) = None
  ∧ result (run (validated answer) (status (new BatchJob align_reads settings)) ∅)
    = inl (ApiValueError
             "Missing the required parameter `name` when calling `read_namespaced_job`")
  ∧ result (run (validated FakeLogs.unreachable)
              (status (new BatchJob align_reads settings)) [])
    = inl (ApiValueError
             "Missing the required parameter `name` when calling `read_namespaced_job`")
  ∧ result (run answer (status (new FluxMiniCluster align_reads settings)) ∅)
    = inl (AttributeError "FluxMiniCluster" "status").
Proof.
  split; [reflexivity|]. split; [|split].
  - destruct (proj1 (status_before_submit answer (new BatchJob align_reads settings) ∅)
                eq_refl eq_refl) as (_ & ->).
    reflexivity.
  - destruct (proj1 (status_before_submit FakeLogs.unreachable
                       (new BatchJob align_reads settings) [])
                eq_refl eq_refl) as (_ & ->).
    reflexivity.
  - rewrite (proj2 (status_before_submit answer (new FluxMiniCluster align_reads settings) ∅)
               eq_refl answer).
    reflexivity.
Defined.

(** C7 as stated fails on a [FluxMiniCluster]: before [submit()] its
    [status()] fails with a missing attribute, which is no report of a
    violated precondition, and it fails in the same way once [jobname] is
    set. *)
Lemma status_FluxMiniCluster_unsubmitted :
  let self := new FluxMiniCluster align_reads settings in
  jobname self = None
  ∧ result (run answer (status self) ∅) = inl (AttributeError "FluxMiniCluster" "status")
  ∧ precondition_violation (AttributeError "FluxMiniCluster" "status") = false
  ∧ result (run answer (status (set_jobname self (Some "snakejob-align-reads-42x7k2q"))) ∅)
    = inl (AttributeError "FluxMiniCluster" "status").
Proof. repeat split. Qed.

Lemma write_log_FluxMiniCluster_witness :
  cls (new FluxMiniCluster align_reads settings) = FluxMiniCluster
  ∧ run answer (write_log (new FluxMiniCluster align_reads settings) "logs/align") ∅
    = {| result := inr tt; final := ∅; trace := [] |}.
Proof.
  split; [reflexivity|].
  exact (proj2 (proj2 (proj2 (write_log_FluxMiniCluster
           (new FluxMiniCluster align_reads settings) "logs/align" eq_refl))) _ answer ∅).
Defined.

End EffectExamples.

(** ** The generated objects *)

Lemma generate_dispatch (self : handle) (image command : string)
    (args : list string) (working_dir : option string) (deadline : pyval)
    (environment : option (list (string * string))) :
  generate self image command args working_dir deadline environment
  = match cls self with
    | BatchJob =>
        Ret (BatchJob_generate self image command args working_dir deadline environment)
    | FluxMiniCluster =>
        Ret (FluxMiniCluster_generate self image command args working_dir deadline
               environment)
    | KubernetesObject => Raise (AttributeError "KubernetesObject" "generate")
    end.
Proof. destruct self as [[] jb a n]; reflexivity. Qed.

(** Character by character, the prefix is the filled-in pattern with each
    underscore turned into a hyphen. *)
Lemma jobprefix_get (self : handle) (i : nat) :
  String.get i (jobprefix self)
  = (λ c, if Ascii.eqb c "_" then "-"%char else c)
    <$> String.get i
          ("snakejob-" +:+ job_name (job self) +:+ "-" +:+ str (job_jobid (job self))).
Proof. apply replace_get. Qed.

(** X5: the prefix holds no underscore. *)
Lemma jobprefix_no_underscore (self : handle) (i : nat) :
  String.get i (jobprefix self) ≠ Some "_"%char.
Proof. apply replace_none_left. discriminate. Qed.

Lemma BatchJob_generate_name (self : handle) (image command : string)
    (args : list string) (working_dir : option string) (deadline : pyval)
    (environment : option (list (string * string))) :
  generate_name_of
    (BatchJob_generate self image command args working_dir deadline environment)
  = Some (jobprefix self).
Proof. reflexivity. Qed.

Lemma FluxMiniCluster_generate_name (self : handle) (image command : string)
    (args : list string) (working_dir : option string) (deadline : pyval)
    (environment : option (list (string * string))) :
  generate_name_of
    (FluxMiniCluster_generate self image command args working_dir deadline environment)
  = jobname self.
Proof. reflexivity. Qed.

(** C3 (the code departs from it): for the task named align_reads with id
    42 the prefix is snakejob-align-reads-42 and the batch job carries it as
    its [generateName], but the MiniCluster of a new handle carries no
    [generateName]: its generator passes [jobname], still unset, where the
    batch generator passes [jobprefix]. *)
Theorem generate_name_align_reads :
  let batch := new BatchJob FakeCluster.align_reads FakeCluster.settings in
  let flux := new FluxMiniCluster FakeCluster.align_reads FakeCluster.settings in
  jobprefix batch = "snakejob-align-reads-42"
  ∧ jobprefix flux = "snakejob-align-reads-42"
  ∧ generate_name_of
      (BatchJob_generate batch "snakemake/snakemake" "snakemake" ["--cores"; "1"]
         None PyNone None)
    = Some "snakejob-align-reads-42"
  ∧ generate_name_of
      (FluxMiniCluster_generate flux "snakemake/snakemake" "snakemake" ["--cores"; "1"]
         None PyNone None)
    = None.
Proof. repeat split. Qed.

(** C4: whatever the task and the parameters, the batch job that
    [generate()] builds declares 3 completions, is suspended, has the task's
    [_nodes] resource as its parallelism, and its pod template holds one
    container and the restart policy Never; reading the completions back
    from the object gives 3. *)
Theorem BatchJob_generate_spec (self : handle) (image command : string)
    (args : list string) (working_dir : option string) (deadline : pyval)
    (environment : option (list (string * string))) :
  let o := BatchJob_generate self image command args working_dir deadline environment in
  declared_completions o = Some 3
  ∧ ∃ (j : V1Job) (sp : V1JobSpec) (t : PodTemplate) (c : V1Container),
      o = JobObject j
      ∧ j_spec j = Some sp
      ∧ completions sp = Some 3
      ∧ suspend sp = Some true
      ∧ parallelism sp = default PyNone (job_resources (job self) !! "_nodes")
      ∧ template sp = Some t
      ∧ containers (template_spec t) = [c]
      ∧ restartPolicy (template_spec t) = "Never".
Proof.
  intros o. split; [reflexivity|].
  unfold o, BatchJob_generate. repeat eexists.
Qed.

(** C5: the MiniCluster has one container, and its command is the single
    string made of the command, a space, and the arguments joined by
    spaces; with no argument it is the command followed by a space. *)
Theorem FluxMiniCluster_command (self : handle) (image command : string)
    (args : list string) (working_dir : option string) (deadline : pyval)
    (environment : option (list (string * string))) :
  ∃ (mc : MiniCluster) (c : MiniClusterContainer),
    FluxMiniCluster_generate self image command args working_dir deadline environment
    = MiniClusterObject mc
    ∧ ms_containers (m_spec mc) = [c]
    ∧ mc_command c = command +:+ " " +:+ join " " args
    ∧ (args = [] → mc_command c = command +:+ " ").
Proof.
  unfold FluxMiniCluster_generate. do 2 eexists. repeat split.
  simpl. now intros ->.
Qed.

(** C9: the [deadline] argument has no influence on what either generator
    builds; the deadline of the object is the task's [runtime] resource when
    that is truthy and is left unset otherwise. *)
Theorem generate_ignores_deadline (self : handle) (image command : string)
    (args : list string) (working_dir : option string) (d1 d2 : pyval)
    (environment : option (list (string * string))) :
  let runtime := default PyNone (job_resources (job self) !! "runtime") in
  BatchJob_generate self image command args working_dir d1 environment
  = BatchJob_generate self image command args working_dir d2 environment
  ∧ FluxMiniCluster_generate self image command args working_dir d1 environment
    = FluxMiniCluster_generate self image command args working_dir d2 environment
  ∧ generate self image command args working_dir d1 environment
    = generate self image command args working_dir d2 environment
  ∧ (∃ j sp t c,
       BatchJob_generate self image command args working_dir d1 environment = JobObject j
       ∧ j_spec j = Some sp ∧ template sp = Some t ∧ containers (template_spec t) = [c]
       ∧ c_active_deadline_seconds c = if truthy runtime then runtime else PyNone)
  ∧ (∃ mc,
       FluxMiniCluster_generate self image command args working_dir d1 environment
       = MiniClusterObject mc
       ∧ ms_deadline (m_spec mc) = if truthy runtime then runtime else PyNone).
Proof.
  intros runtime. split; [reflexivity|]. split; [reflexivity|]. split.
  - now rewrite !generate_dispatch.
  - split; unfold BatchJob_generate, FluxMiniCluster_generate; repeat eexists.
Qed.

(** For a task whose resources have no [kueue.memory], or a falsy one, the
    batch generator requests the default memory 200Mi for its container; the
    container of the MiniCluster has no resource requests, its memory is a
    resource limit. *)
Lemma default_memory (self : handle) (image command : string)
    (args : list string) (working_dir : option string) (deadline : pyval)
    (environment : option (list (string * string))) :
  (∀ v, job_resources (job self) !! "kueue.memory" = Some v → truthy v = false) →
  (∃ j sp t c,
     BatchJob_generate self image command args working_dir deadline environment
     = JobObject j
     ∧ j_spec j = Some sp ∧ template sp = Some t ∧ containers (template_spec t) = [c]
     ∧ resource (c_resources c) "requests" "memory" = Some (PyStr "200Mi"))
  ∧ (∃ mc c,
       FluxMiniCluster_generate self image command args working_dir deadline environment
       = MiniClusterObject mc
       ∧ ms_containers (m_spec mc) = [c]
       ∧ mc_resources c !! "requests" = None
       ∧ is_Some (resource (mc_resources c) "limits" "memory")).
Proof.
  intros Hmem. split.
  - unfold BatchJob_generate. do 4 eexists. repeat split.
    unfold resource, get, py_or; simpl.
    destruct (job_resources (job self) !! "kueue.memory") as [v|] eqn:E; simpl.
    + now rewrite (Hmem v eq_refl).
    + reflexivity.
  - unfold FluxMiniCluster_generate. do 2 eexists. repeat split. now eexists.
Qed.

(** C2 (the code departs from it): for the task align_reads, which has no
    [kueue.memory], the batch generator requests the default memory 200Mi,
    but the memory the MiniCluster generator falls back on is 200M1, not
    200Mi, and it stands among the container's limits, the container having
    no requests. *)
Theorem default_memory_align_reads :
  job_resources FakeCluster.align_reads !! "kueue.memory" = None
  ∧ (∃ c,
       batch_container
         (BatchJob_generate (new BatchJob FakeCluster.align_reads FakeCluster.settings)
            "snakemake/snakemake" "snakemake" ["--cores"; "1"] None PyNone None) = Some c
       ∧ resource (c_resources c) "requests" "memory" = Some (PyStr "200Mi"))
  ∧ (∃ mc,
       minicluster_container
         (FluxMiniCluster_generate
            (new FluxMiniCluster FakeCluster.align_reads FakeCluster.settings)
            "snakemake/snakemake" "snakemake" ["--cores"; "1"] None PyNone None) = Some mc
       ∧ resource (mc_resources mc) "requests" "memory" = None
       ∧ resource (mc_resources mc) "limits" "memory" = Some (PyStr "200M1")
       ∧ resource (mc_resources mc) "limits" "memory" ≠ Some (PyStr "200Mi")).
Proof.
  split; [reflexivity|]. split.
  - eexists. split; reflexivity.
  - eexists. repeat split. discriminate.
Qed.

Module GenerateExamples.

Import FakeCluster.

Lemma default_memory_witness :
  job_resources (job (new BatchJob align_reads settings)) !! "kueue.memory" = None
  ∧ ∃ j sp t c,
      batch_body = JobObject j
      ∧ j_spec j = Some sp ∧ template sp = Some t ∧ containers (template_spec t) = [c]
      ∧ resource (c_resources c) "requests" "memory" = Some (PyStr "200Mi").
Proof.
  split; [reflexivity|].
  refine (proj1 (default_memory (new BatchJob align_reads settings)
                   "snakemake/snakemake" "snakemake" ["--cores"; "1"] None PyNone None _)).
  intros v H. discriminate H.
Defined.

End GenerateExamples.

(** ** More on the name prefix *)

Lemma replace_app (old new : ascii) (s t : string) :
  replace old new (s +:+ t) = replace old new s +:+ replace old new t.
Proof.
  induction s as [|c s IH]; simpl; [reflexivity|]. now rewrite IH.
Qed.

Lemma replace_idem (old new : ascii) (s : string) :
  new ≠ old → replace old new (replace old new s) = replace old new s.
Proof.
  intros Hne. induction s as [|c s IH]; simpl; [reflexivity|].
  rewrite IH. f_equal.
  destruct (Ascii.eqb c old) eqn:E; [|now rewrite E].
  apply Ascii.eqb_neq in Hne. now rewrite Hne.
Qed.

Lemma replace_absent (old new : ascii) (s : string) :
  (∀ i, String.get i s ≠ Some old) → replace old new s = s.
Proof.
  induction s as [|c s IH]; intros H; simpl; [reflexivity|].
  rewrite IH by (intros i; apply (H (S i))).
  destruct (Ascii.eqb c old) eqn:E; [|reflexivity].
  apply Ascii.eqb_eq in E. subst c. now destruct (H 0%nat).
Qed.

Lemma string_length_app (s t : string) :
  String.length (s +:+ t) = (String.length s + String.length t)%nat.
Proof.
  induction s as [|c s IH]; simpl; [reflexivity|]. now rewrite IH.
Qed.

(** The decimal writing of an integer consists of digits and a sign. *)
Lemma uint_no_underscore (d : Decimal.uint) (i : nat) :
  String.get i (NilEmpty.string_of_uint d) ≠ Some "_"%char.
Proof.
  revert i. induction d; intros [|i]; simpl; try discriminate; apply IHd.
Qed.

Lemma str_int_no_underscore (z : Z) (i : nat) :
  String.get i (str_int z) ≠ Some "_"%char.
Proof.
  unfold str_int, NilZero.string_of_int.
  assert (H : ∀ d k, String.get k (NilZero.string_of_uint d) ≠ Some "_"%char).
  { intros d k. destruct d; try apply uint_no_underscore.
    destruct k as [|[|k]]; discriminate. }
  destruct (Z.to_int z) as [d|d]; [apply H|].
  destruct i as [|i]; simpl; [discriminate|apply H].
Qed.

(** X6: the prefix is never shortened: it is as long as its three parts and the
    two hyphens, whatever the length of the job's name. *)
Theorem jobprefix_length (self : handle) :
  String.length (jobprefix self)
  = (10 + String.length (job_name (job self))
     + String.length (str (job_jobid (job self))))%nat.
Proof.
  unfold jobprefix. rewrite replace_length, !string_length_app. simpl. lia.
Qed.

(** X7: for a name without underscore and an integer id nothing is replaced. *)
Theorem jobprefix_plain (self : handle) (z : Z) :
  (∀ i, String.get i (job_name (job self)) ≠ Some "_"%char) →
  job_jobid (job self) = PyInt z →
  jobprefix self = "snakejob-" +:+ job_name (job self) +:+ "-" +:+ str_int z.
Proof.
  intros Hname Hid. unfold jobprefix. rewrite Hid; simpl str.
  rewrite (replace_app _ _ "snakejob-"), replace_app, (replace_app _ _ "-").
  rewrite (replace_absent _ _ (job_name (job self))) by exact Hname.
  rewrite (replace_absent _ _ (str_int z)) by apply str_int_no_underscore.
  reflexivity.
Qed.

(** X8: the prefix does not tell an underscore from a hyphen, nor an integer id
    from its decimal writing: two jobs whose names agree once underscores
    are turned into hyphens, and whose ids are written alike, get the same
    prefix. *)
Theorem jobprefix_collision (self other : handle) :
  replace "_" "-" (job_name (job self)) = replace "_" "-" (job_name (job other)) →
  str (job_jobid (job self)) = str (job_jobid (job other)) →
  jobprefix self = jobprefix other.
Proof.
  intros Hn Hi. unfold jobprefix.
  rewrite !(replace_app _ _ "snakejob-"), !(replace_app _ _ (job_name _)).
  now rewrite Hn, Hi.
Qed.

(** The prefix depends on the job alone, not on the class, the settings or
    the name the cluster assigned. *)
Lemma jobprefix_of_job (self other : handle) :
  job self = job other → jobprefix self = jobprefix other.
Proof. unfold jobprefix. now intros ->. Qed.

Module PrefixExamples.

Import FakeCluster.

Lemma jobprefix_plain_witness :
  job_jobid (job (new BatchJob FakeLogs.assemble settings)) = PyInt 7
  ∧ jobprefix (new BatchJob FakeLogs.assemble settings) = "snakejob-assemble-7".
Proof.
  split; [reflexivity|].
  refine (jobprefix_plain (new BatchJob FakeLogs.assemble settings) 7 _ eq_refl).
  intros i. do 9 (destruct i as [|i]; [discriminate|]). discriminate.
Defined.

(** align_reads with id 42 and align-reads with id "42". *)
Lemma jobprefix_collision_witness :
  job_name align_reads ≠ "align-reads"
  ∧ jobprefix (new BatchJob align_reads settings)
    = jobprefix (new BatchJob {| job_name := "align-reads"; job_jobid := PyStr "42";
                                  job_resources := ∅ |} settings).
Proof.
  split; [discriminate|].
  exact (jobprefix_collision (new BatchJob align_reads settings)
           (new BatchJob {| job_name := "align-reads"; job_jobid := PyStr "42";
                            job_resources := ∅ |} settings) eq_refl eq_refl).
Defined.

End PrefixExamples.

(** ** More on the generated objects *)

Lemma fold_left_snoc {A B : Type} (f : A -> B) (l : list A) (acc : list B) :
  fold_left (λ acc x, acc ++ [f x]) l acc = acc ++ map f l.
Proof.
  revert acc. induction l as [|x l IH]; intros acc; simpl.
  - now rewrite app_nil_r.
  - now rewrite IH, <- app_assoc.
Qed.

(** X1: the environment of the batch container lists the variables of the
    [environment] argument, one entry each and in its order; no argument, or
    an empty one, gives no variable. *)
Theorem BatchJob_generate_env (self : handle) (image command : string)
    (args : list string) (working_dir : option string) (deadline : pyval)
    (environment : option (list (string * string))) :
  ∃ c,
    batch_container
      (BatchJob_generate self image command args working_dir deadline environment)
    = Some c
    ∧ c_env c = map (λ kv, {| env_name := kv.1; env_value := kv.2 |})
                    (default [] environment)
    ∧ env_name <$> c_env c = (default [] environment).*1
    ∧ env_value <$> c_env c = (default [] environment).*2.
Proof.
  eexists. split; [reflexivity|]. simpl c_env.
  assert (E : match environment with Some ((_ :: _) as d) => d | _ => [] end
              = default [] environment) by now destruct environment as [[|]|].
  rewrite E, fold_left_snoc; simpl. clear E.
  split; [reflexivity|].
  split; induction (default [] environment) as [|kv l IH]; simpl;
    try reflexivity; now f_equal.
Qed.

(** X2: a truthy [kueue.memory] of the task is what both generators pass on, the
    batch generator as the memory requested and the MiniCluster generator as
    the memory limit; and whatever the task says, neither memory is ever
    [None] or empty. *)
Theorem generate_memory (self : handle) (image command : string)
    (args : list string) (working_dir : option string) (deadline : pyval)
    (environment : option (list (string * string))) :
  ∃ c mc,
    batch_container
      (BatchJob_generate self image command args working_dir deadline environment)
    = Some c
    ∧ minicluster_container
        (FluxMiniCluster_generate self image command args working_dir deadline environment)
      = Some mc
    ∧ (∀ v, job_resources (job self) !! "kueue.memory" = Some v → truthy v = true →
         resource (c_resources c) "requests" "memory" = Some v
         ∧ resource (mc_resources mc) "limits" "memory" = Some v)
    ∧ (∃ m, resource (c_resources c) "requests" "memory" = Some m ∧ truthy m = true)
    ∧ (∃ m, resource (mc_resources mc) "limits" "memory" = Some m ∧ truthy m = true).
Proof.
  do 2 eexists. split; [reflexivity|]. split; [reflexivity|].
  unfold resource, get, py_or; simpl. repeat split.
  - rewrite H; simpl. now rewrite H0.
  - rewrite H; simpl. now rewrite H0.
  - eexists. split; [reflexivity|].
    destruct (job_resources (job self) !! "kueue.memory") as [v|]; simpl; [|reflexivity].
    now destruct (truthy v) eqn:E.
  - eexists. split; [reflexivity|].
    destruct (job_resources (job self) !! "kueue.memory") as [v|]; simpl; [|reflexivity].
    now destruct (truthy v) eqn:E.
Qed.

(** X3: the MiniCluster runs the task's [kueue.tasks] tasks when that resource
    is truthy and one task when it is missing, zero, or otherwise falsy; its
    size is the task's [_nodes], unchecked. *)
Theorem FluxMiniCluster_tasks (self : handle) (image command : string)
    (args : list string) (working_dir : option string) (deadline : pyval)
    (environment : option (list (string * string))) :
  ∃ sp,
    minicluster_spec
      (FluxMiniCluster_generate self image command args working_dir deadline environment)
    = Some sp
    ∧ (∀ v, job_resources (job self) !! "kueue.tasks" = Some v → truthy v = true →
         ms_tasks sp = v)
    ∧ ((∀ v, job_resources (job self) !! "kueue.tasks" = Some v → truthy v = false) →
         ms_tasks sp = PyInt 1)
    ∧ truthy (ms_tasks sp) = true
    ∧ ms_size sp = default PyNone (job_resources (job self) !! "_nodes").
Proof.
  eexists. split; [reflexivity|]. unfold get, py_or; simpl. repeat split.
  - intros v Hv Ht. rewrite Hv; simpl. now rewrite Ht.
  - intros H. destruct (job_resources (job self) !! "kueue.tasks") as [v|]; simpl;
      [|reflexivity]. now rewrite (H v eq_refl).
  - destruct (job_resources (job self) !! "kueue.tasks") as [v|]; simpl; [|reflexivity].
    now destruct (truthy v) eqn:E.
Qed.

Lemma string_app_assoc (s t u : string) : (s +:+ t) +:+ u = s +:+ t +:+ u.
Proof.
  induction s as [|c s IH]; [reflexivity|].
  change (String c ((s +:+ t) +:+ u) = String c (s +:+ t +:+ u)). now f_equal.
Qed.

(** Joining does not tell an argument that holds a space from two
    arguments. *)
Lemma join_space (l1 l2 : list string) (a b : string) :
  join " " (l1 ++ [a +:+ " " +:+ b] ++ l2) = join " " (l1 ++ [a; b] ++ l2).
Proof.
  induction l1 as [|x l1 IH].
  - destruct l2 as [|y l2]; [reflexivity|].
    change (join " " ((a +:+ " " +:+ b) :: y :: l2)
            = join " " (a :: b :: y :: l2)).
    rewrite !join_more. now rewrite !string_app_assoc.
  - destruct l1 as [|y l1].
    + change (join " " (x :: (a +:+ " " +:+ b) :: l2) = join " " (x :: a :: b :: l2)).
      rewrite (join_more _ x), (join_more _ x). f_equal. f_equal. exact IH.
    + change (join " " (x :: y :: (l1 ++ [a +:+ " " +:+ b] ++ l2))
              = join " " (x :: y :: (l1 ++ [a; b] ++ l2))).
      rewrite (join_more _ x), (join_more _ x). f_equal. f_equal. exact IH.
Qed.

(** X4: the arguments reach the MiniCluster unquoted: an argument with a space
    in it and the two arguments it falls into give the same object, while
    the batch job keeps the argument list as it is. *)
Theorem FluxMiniCluster_args_unquoted (self : handle) (image command : string)
    (l1 l2 : list string) (a b : string) (working_dir : option string)
    (deadline : pyval) (environment : option (list (string * string))) :
  FluxMiniCluster_generate self image command (l1 ++ [a +:+ " " +:+ b] ++ l2)
    working_dir deadline environment
  = FluxMiniCluster_generate self image command (l1 ++ [a; b] ++ l2)
      working_dir deadline environment
  ∧ (c_args <$> batch_container
       (BatchJob_generate self image command (l1 ++ [a +:+ " " +:+ b] ++ l2)
          working_dir deadline environment))
    = Some (l1 ++ [a +:+ " " +:+ b] ++ l2).
Proof.
  split; [|reflexivity].
  unfold FluxMiniCluster_generate. now rewrite join_space.
Qed.

Module MoreGenerateExamples.

Import FakeCluster.

Lemma generate_memory_witness :
  job_resources FakeLogs.assemble !! "kueue.memory" = Some (PyStr "2Gi")
  ∧ ∃ c mc,
      batch_container
        (BatchJob_generate (new BatchJob FakeLogs.assemble settings)
           "snakemake/snakemake" "snakemake" [] None PyNone None) = Some c
      ∧ minicluster_container
          (FluxMiniCluster_generate (new BatchJob FakeLogs.assemble settings)
             "snakemake/snakemake" "snakemake" [] None PyNone None) = Some mc
      ∧ resource (c_resources c) "requests" "memory" = Some (PyStr "2Gi")
      ∧ resource (mc_resources mc) "limits" "memory" = Some (PyStr "2Gi").
Proof.
  split; [reflexivity|].
  destruct (generate_memory (new BatchJob FakeLogs.assemble settings)
              "snakemake/snakemake" "snakemake" [] None PyNone None)
    as (c & mc & Hc & Hmc & Hv & _).
  exists c, mc. split; [exact Hc|]. split; [exact Hmc|].
  exact (Hv (PyStr "2Gi") eq_refl eq_refl).
Defined.

Lemma FluxMiniCluster_tasks_witness :
  job_resources FakeLogs.assemble !! "kueue.tasks" = Some (PyInt 4)
  ∧ job_resources align_reads !! "kueue.tasks" = None
  ∧ (ms_tasks <$> minicluster_spec
       (FluxMiniCluster_generate (new FluxMiniCluster FakeLogs.assemble settings)
          "snakemake/snakemake" "snakemake" [] None PyNone None)) = Some (PyInt 4)
  ∧ (ms_tasks <$> minicluster_spec
       (FluxMiniCluster_generate (new FluxMiniCluster align_reads settings)
          "snakemake/snakemake" "snakemake" [] None PyNone None)) = Some (PyInt 1).
Proof.
  split; [reflexivity|]. split; [reflexivity|]. split.
  - destruct (FluxMiniCluster_tasks (new FluxMiniCluster FakeLogs.assemble settings)
                "snakemake/snakemake" "snakemake" [] None PyNone None)
      as (sp & -> & Hv & _).
    simpl. f_equal. exact (Hv (PyInt 4) eq_refl eq_refl).
  - destruct (FluxMiniCluster_tasks (new FluxMiniCluster align_reads settings)
                "snakemake/snakemake" "snakemake" [] None PyNone None)
      as (sp & -> & _ & Hd & _).
    simpl. f_equal. apply Hd. intros v H. discriminate H.
Defined.

End MoreGenerateExamples.

(** ** More on the status *)

Section MoreStatus.

Context {world : Type} (cl : client world).

(** The whole outcome of [status] on a batch handle, by the answer to its
    read. *)
Lemma status_run (self : handle) (w : world) :
  cls self = BatchJob →
  let c := read_namespaced_job (jobname self) (namespace (executor_args self)) in
  trace (run cl (status self) w) = [ev c]
  ∧ final (run cl (status self) w) = (cl _ c w).2
  ∧ (∀ e, (cl _ c w).1 = inl e → result (run cl (status self) w) = inl e)
  ∧ (∀ j, (cl _ c w).1 = inr j → j_status j = None →
       result (run cl (status self) w) = inl (AttributeError "NoneType" "failed")).
Proof.
  destruct self as [k jb a n]; simpl. intros ->.
  unfold status, lookup_method; simpl.
  destruct (cl V1Job (read_namespaced_job n (namespace a)) w) as [[e|j] w']; simpl.
  - repeat split; [now intros e' [= ->]|discriminate].
  - destruct (j_status j) as [st|] eqn:Est; simpl.
    + destruct (bool_decide (failed st ≠ Some 0)), (truthy_int (active st)),
        (truthy_int (ready st)), (truthy_int (succeeded st)); simpl;
        try (destruct (j_spec j) as [sp|]; simpl;
             [destruct (bool_decide (succeeded st = completions sp)); simpl|]);
        repeat split; try discriminate; intros j0 [= <-] H; congruence.
    + repeat split; try discriminate; reflexivity.
Qed.

(** X9: [status()] makes one call, the read of the job under the recorded name
    in the handle's namespace, and nothing else; when the client raises on
    that call, [status()] fails with the client's exception: it is not
    turned into [UNKNOWN] or any other status. *)
Theorem status_single_read (self : handle) (w : world) (e : exn) (w' : world) :
  cls self = BatchJob →
  cl _ (read_namespaced_job (jobname self) (namespace (executor_args self))) w = (inl e, w') →
  run cl (status self) w
  = {| result := inl e; final := w';
       trace := [ev (read_namespaced_job (jobname self) (namespace (executor_args self)))] |}.
Proof.
  intros Hc Hcall. destruct (status_run self w Hc) as (Ht & Hf & He & _).
  rewrite Hcall in Hf, He. specialize (He e eq_refl).
  destruct (run cl (status self) w) as [r f t]; simpl in *. now subst.
Qed.

(** X10: whatever the cluster answers, [status()] makes exactly one call. *)
Theorem status_trace (self : handle) (w : world) :
  cls self = BatchJob →
  trace (run cl (status self) w)
  = [ev (read_namespaced_job (jobname self) (namespace (executor_args self)))].
Proof. intros Hc. exact (proj1 (status_run self w Hc)). Qed.

(** X11: [FAILED] is returned exactly when the failed count is not a present
    [0]: every other status tells that the cluster reported zero failures. *)
Theorem status_failed_iff (self : handle) (w w' : world) (j : V1Job)
    (st : V1JobStatus) :
  cls self = BatchJob →
  cl _ (read_namespaced_job (jobname self) (namespace (executor_args self))) w = (inr j, w') →
  j_status j = Some st →
  result (run cl (status self) w) = inr FAILED ↔ failed st ≠ Some 0.
Proof.
  intros Hc Hread Hst. rewrite (status_result cl self w w' j st Hc Hread Hst).
  destruct (decide (failed st = Some 0)) as [E|E].
  - rewrite bool_decide_eq_false_2 by (now intros []).
    split; [|contradiction]. intros H.
    repeat case_match; discriminate.
  - now rewrite bool_decide_eq_true_2.
Qed.

(** X12: [SUCCEEDED] is returned exactly when no failure is reported, nothing is
    active or ready, and the succeeded count is a number other than [0] that
    equals the completions the job declares. *)
Theorem status_succeeded_iff (self : handle) (w w' : world) (j : V1Job)
    (st : V1JobStatus) :
  cls self = BatchJob →
  cl _ (read_namespaced_job (jobname self) (namespace (executor_args self))) w = (inr j, w') →
  j_status j = Some st →
  result (run cl (status self) w) = inr SUCCEEDED
  ↔ failed st = Some 0
    ∧ truthy_int (active st) = false
    ∧ truthy_int (ready st) = false
    ∧ ∃ n sp, n ≠ 0 ∧ succeeded st = Some n ∧ j_spec j = Some sp ∧ completions sp = Some n.
Proof.
  intros Hc Hread Hst. rewrite (status_result cl self w w' j st Hc Hread Hst).
  split.
  - intros H.
    destruct (decide (failed st = Some 0)) as [E|E];
      [rewrite bool_decide_eq_false_2 in H by (now intros [])
      |rewrite bool_decide_eq_true_2 in H by exact E; discriminate].
    destruct (truthy_int (active st)); [discriminate|].
    destruct (truthy_int (ready st)); [discriminate|].
    destruct (truthy_int (succeeded st)) eqn:Et; [|discriminate].
    apply truthy_int_true in Et as (n & Hsu & Hn).
    destruct (j_spec j) as [sp|]; [|discriminate].
    destruct (decide (succeeded st = completions sp)) as [Eq|Eq];
      [|rewrite bool_decide_eq_false_2 in H by exact Eq; discriminate].
    repeat split; try assumption. exists n, sp. repeat split; congruence.
  - intros (Hf & Ha & Hr & n & sp & Hn & Hsu & Hsp & Hco).
    rewrite bool_decide_eq_false_2, Ha, Hr, Hsu, Hsp by (now intros []).
    simpl. apply Z.eqb_neq in Hn. rewrite Hn; simpl.
    now rewrite bool_decide_eq_true_2.
Qed.

(** X13: the declared completions are looked at only when they are needed: for a
    job without a spec, [status()] fails (with an [AttributeError]) exactly
    when the first three rules pass and the succeeded count is truthy, and
    otherwise answers as usual, never with [SUCCEEDED]. *)
Theorem status_without_spec (self : handle) (w w' : world) (j : V1Job)
    (st : V1JobStatus) :
  cls self = BatchJob →
  cl _ (read_namespaced_job (jobname self) (namespace (executor_args self))) w = (inr j, w') →
  j_status j = Some st →
  j_spec j = None →
  (result (run cl (status self) w) = inl (AttributeError "NoneType" "completions")
   ↔ failed st = Some 0 ∧ truthy_int (active st) = false
     ∧ truthy_int (ready st) = false ∧ truthy_int (succeeded st) = true)
  ∧ (truthy_int (succeeded st) = false → ∃ s, result (run cl (status self) w) = inr s).
Proof.
  intros Hc Hread Hst Hsp.
  rewrite (status_result cl self w w' j st Hc Hread Hst), Hsp.
  destruct (decide (failed st = Some 0)) as [E|E].
  - rewrite bool_decide_eq_false_2 by (now intros []).
    destruct (truthy_int (active st)), (truthy_int (ready st)),
      (truthy_int (succeeded st));
      (split;
       [split;
        [intros H; try discriminate H; repeat split; (assumption || reflexivity)
        |intros (_ & ? & ? & ?); try discriminate; reflexivity]
       |intros Hs; try discriminate Hs; eexists; reflexivity]).
  - rewrite bool_decide_eq_true_2 by exact E.
    split; [|intros _; eexists; reflexivity].
    split; [discriminate|]. now intros [? _].
Qed.

(** X14: a job that comes back without a status makes [status()] fail, after
    its one call, with an [AttributeError]. *)
Theorem status_without_status (self : handle) (w w' : world) (j : V1Job) :
  cls self = BatchJob →
  cl _ (read_namespaced_job (jobname self) (namespace (executor_args self))) w = (inr j, w') →
  j_status j = None →
  run cl (status self) w
  = {| result := inl (AttributeError "NoneType" "failed"); final := w';
       trace := [ev (read_namespaced_job (jobname self) (namespace (executor_args self)))] |}.
Proof.
  intros Hc Hcall Hst. destruct (status_run self w Hc) as (Ht & Hf & _ & Hn).
  rewrite Hcall in Hf, Hn. specialize (Hn j eq_refl Hst).
  destruct (run cl (status self) w) as [r f t]; simpl in *. now subst.
Qed.

End MoreStatus.

(** ** More on the submission *)

Section MoreSubmit.

Context {world : Type} (cl : client world).

(** The creation call of a class, if it has a [submit]. *)
Lemma submit_run (self : handle) (body : k8s_object) (w : world) :
  match cls self with
  | BatchJob =>
      let c := create_namespaced_job (namespace (executor_args self)) body in
      trace (run cl (submit self body) w) = [ev c]
      ∧ final (run cl (submit self body) w) = (cl _ c w).2
      ∧ match (cl _ c w).1 with
        | inl e => result (run cl (submit self body) w) = inl e
        | inr res =>
            result (run cl (submit self body) w)
            = match j_metadata res with
              | Some m => inr (JobObject res, set_jobname self (meta_name m))
              | None => inl (AttributeError "NoneType" "name")
              end
        end
  | FluxMiniCluster =>
      let c := create_namespaced_custom_object "flux-framework.org" "v1alpha1"
                 (namespace (executor_args self)) "miniclusters" body in
      trace (run cl (submit self body) w) = [ev c]
      ∧ final (run cl (submit self body) w) = (cl _ c w).2
      ∧ match (cl _ c w).1 with
        | inl e => result (run cl (submit self body) w) = inl e
        | inr res =>
            result (run cl (submit self body) w)
            = inl (AttributeError (json_type res) "metadata")
        end
  | KubernetesObject =>
      run cl (submit self body) w
      = {| result := inl (AttributeError "KubernetesObject" "submit");
           final := w; trace := [] |}
  end.
Proof.
  destruct self as [[] jb a n]; simpl; [reflexivity| |];
    unfold submit, lookup_method; simpl.
  - destruct (cl V1Job _ w) as [[e|res] w']; simpl; [easy|].
    now destruct (j_metadata res).
  - now destruct (cl json _ w) as [[e|res] w'].
Qed.

(** X15: when the cluster refuses the creation, [submit()] fails with the
    client's exception after that one call, for either class; nothing is
    returned, so no name is recorded. *)
Theorem submit_error (self : handle) (body : k8s_object) (w w' : world) (e : exn) :
  (cls self = BatchJob →
   cl _ (create_namespaced_job (namespace (executor_args self)) body) w = (inl e, w') →
   run cl (submit self body) w
   = {| result := inl e; final := w';
        trace := [ev (create_namespaced_job (namespace (executor_args self)) body)] |})
  ∧ (cls self = FluxMiniCluster →
     cl _ (create_namespaced_custom_object "flux-framework.org" "v1alpha1"
             (namespace (executor_args self)) "miniclusters" body) w = (inl e, w') →
     run cl (submit self body) w
     = {| result := inl e; final := w';
          trace := [ev (create_namespaced_custom_object "flux-framework.org" "v1alpha1"
                          (namespace (executor_args self)) "miniclusters" body)] |}).
Proof.
  split; intros Hc Hcall; generalize (submit_run self body w); rewrite Hc; simpl;
    rewrite Hcall; simpl; intros (Ht & Hf & Hr);
    destruct (run cl (submit self body) w) as [r f t]; simpl in *; now subst.
Qed.

(** X16: [submit()] does not look at the name already recorded: on a handle that
    was submitted before it behaves as on a new one, and the new name
    replaces the old. *)
Theorem submit_ignores_jobname (self : handle) (n : option string) (body : k8s_object) :
  submit (set_jobname self n) body = submit self body.
Proof. destruct self as [[] jb a n0]; reflexivity. Qed.

(** X17: a successful [submit()] changes nothing of the handle but [jobname]:
    class, job and settings stay, and so does what the batch generator
    builds from the handle. *)
Theorem submit_frame (self self' : handle) (body : k8s_object) (w : world) :
  handle_after (run cl (submit self body) w) = Some self' →
  cls self' = cls self
  ∧ job self' = job self
  ∧ executor_args self' = executor_args self
  ∧ jobprefix self' = jobprefix self
  ∧ ∀ image command args working_dir deadline environment,
      BatchJob_generate self' image command args working_dir deadline environment
      = BatchJob_generate self image command args working_dir deadline environment.
Proof.
  intros H.
  assert (E : ∃ n, self' = set_jobname self n).
  { generalize (submit_run self body w). unfold handle_after in H.
    destruct (cls self).
    - intros E. rewrite E in H. discriminate H.
    - intros (_ & _ & Hr). destruct ((cl _ _ w).1) as [e|res];
        rewrite Hr in H; [discriminate H|].
      destruct (j_metadata res) as [m|]; [|discriminate H].
      injection H as <-. eauto.
    - intros (_ & _ & Hr). destruct ((cl _ _ w).1) as [e|res];
        rewrite Hr in H; discriminate H. }
  destruct E as [n ->]. repeat split.
Qed.

(** X18: after a successful [submit()], [status()] asks the cluster for the job
    under the name the cluster gave to the created object, in the same
    namespace: the two calls of the sequence are the creation and that
    read. *)
Theorem submit_then_status (self : handle) (body : k8s_object) (w w' : world)
    (res : V1Job) (m : V1ObjectMeta) :
  cls self = BatchJob →
  cl _ (create_namespaced_job (namespace (executor_args self)) body) w = (inr res, w') →
  j_metadata res = Some m →
  trace (run cl (submit self body ≫= λ r, status r.2) w)
  = [ev (create_namespaced_job (namespace (executor_args self)) body);
     ev (read_namespaced_job (meta_name m) (namespace (executor_args self)))].
Proof.
  intros Hc Hcall Hm.
  change (submit self body ≫= λ r, status r.2)
    with (bind (submit self body) (λ r, status r.2)).
  rewrite run_bind.
  generalize (submit_run self body w). rewrite Hc; simpl. rewrite Hcall; simpl.
  rewrite Hm. intros (Ht & Hf & Hr). rewrite Hr, Ht, Hf; simpl.
  f_equal. apply (status_run cl (set_jobname self (meta_name m)) w' Hc).
Qed.

End MoreSubmit.

(** ** More on the logs *)

Section MoreLogs.

Context {world : Type} (cl : client world).

Lemma write_log_unfold (self : handle) (logprefix : string) :
  cls self = BatchJob →
  write_log self logprefix
  = Call (list_namespaced_pod (namespace (executor_args self))
            ("job-name=" +:+ str_opt (jobname self)))
      (λ pods, for_each (items pods) (write_pod_log (namespace (executor_args self)) logprefix)).
Proof. destruct self as [k jb a n]; simpl. now intros ->. Qed.

(** One pod: at most one file is asked for, the pod's own, and exactly that
    one when the step returns. *)
Lemma write_pod_log_files (ns logprefix : string) (pod : V1Pod) (w : world) :
  forallb log_call (trace (run cl (write_pod_log ns logprefix pod) w)) = true
  ∧ match result (run cl (write_pod_log ns logprefix pod) w) with
    | inr _ =>
        (written_files (trace (run cl (write_pod_log ns logprefix pod) w))).*2
        = [log_file logprefix pod]
    | inl _ =>
        (written_files (trace (run cl (write_pod_log ns logprefix pod) w))).*2
          `prefix_of` [log_file logprefix pod]
    end.
Proof.
  unfold log_file, write_pod_log.
  destruct pod as [[m|]]; simpl; [|split; [reflexivity|apply prefix_nil]].
  destruct (cl string _ w) as [[e|log] w1]; simpl; [split; [reflexivity|apply prefix_nil]|].
  destruct (cl unit (logger_debug _) w1) as [[e|u] w2]; simpl;
    [split; [reflexivity|apply prefix_nil]|].
  destruct (cl unit (write_file _ _) w2) as [[e|u'] w3]; simpl; now split.
Qed.

(** A loop whose every step asks for at most the file [name] of its pod. *)
Lemma for_each_files (body : V1Pod -> prog unit) (name : V1Pod -> string) :
  (∀ pod w,
     forallb log_call (trace (run cl (body pod) w)) = true
     ∧ match result (run cl (body pod) w) with
       | inr _ => (written_files (trace (run cl (body pod) w))).*2 = [name pod]
       | inl _ => (written_files (trace (run cl (body pod) w))).*2 `prefix_of` [name pod]
       end) →
  ∀ pods w,
    forallb log_call (trace (run cl (for_each pods body) w)) = true
    ∧ (written_files (trace (run cl (for_each pods body) w))).*2 `prefix_of` map name pods
    ∧ (∀ u, result (run cl (for_each pods body) w) = inr u →
       (written_files (trace (run cl (for_each pods body) w))).*2 = map name pods).
Proof.
  intros Hstep pods. induction pods as [|pod pods IH]; intros w; [now repeat split|].
  cbn [for_each]. rewrite run_bind.
  destruct (Hstep pod w) as [Hcalls Hfiles].
  destruct (result (run cl (body pod) w)) as [e|u]; cbn [trace result].
  - split; [exact Hcalls|]. split.
    + etransitivity; [exact Hfiles|]. apply prefix_cons, prefix_nil.
    + discriminate.
  - destruct (IH (final (run cl (body pod) w))) as (IHc & IHp & IHe).
    cbn zeta. cbn [trace result].
    unfold written_files in *.
    rewrite forallb_app, omap_app, fmap_app, Hcalls, IHc, Hfiles.
    split; [reflexivity|]. split.
    + now apply prefix_cons.
    + intros u' Hok. cbn [map]. simpl app. f_equal. now apply (IHe u').
Qed.

(** A client that serves logs lets every step return. *)
Lemma for_each_served (ns logprefix : string) (pods : list V1Pod) (w : world) :
  serves_logs cl →
  Forall (λ pod, is_Some (pod_metadata pod)) pods →
  result (run cl (for_each pods (write_pod_log ns logprefix)) w) = inr tt.
Proof.
  intros (Hlog & Hdbg & Hwr) Hpods. revert w.
  induction Hpods as [|pod pods [m Hm] _ IH]; intros w; [reflexivity|].
  cbn [for_each]. rewrite run_bind.
  assert (E : ∃ w', result (run cl (write_pod_log ns logprefix pod) w) = inr tt
                    ∧ final (run cl (write_pod_log ns logprefix pod) w) = w').
  { unfold write_pod_log. destruct pod as [md]; simpl in Hm; subst md; simpl.
    destruct (Hlog (meta_name m) ns w) as (log & w1 & ->); simpl.
    destruct (Hdbg ("Writing output to "
                    +:+ (logprefix +:+ "-" +:+ str_opt (meta_name m) +:+ ".txt")) w1)
      as (w2 & ->); simpl.
    destruct (Hwr log (logprefix +:+ "-" +:+ str_opt (meta_name m) +:+ ".txt") w2)
      as (w3 & ->); simpl. eauto. }
  destruct E as (w' & -> & ->). cbn [result]. apply IH.
Qed.

(** X20: the files [write_log] asks to write are those of the listed pods, in the
    order of the listing, each at most once and none skipped: whatever the
    client does, their names are a prefix of the listing's; and every call
    made reads a pod list, reads a log, logs or writes a file. *)
Theorem write_log_files_in_order (self : handle) (logprefix : string)
    (w w' : world) (pods : V1PodList) :
  cls self = BatchJob →
  cl _ (list_namespaced_pod (namespace (executor_args self))
          ("job-name=" +:+ str_opt (jobname self))) w = (inr pods, w') →
  (written_files (trace (run cl (write_log self logprefix) w))).*2
    `prefix_of` map (log_file logprefix) (items pods)
  ∧ forallb log_call (trace (run cl (write_log self logprefix) w)) = true.
Proof.
  intros Hc Hcall. rewrite (write_log_unfold self logprefix Hc).
  cbn [run]. rewrite Hcall.
  destruct (for_each_files _ _
              (write_pod_log_files (namespace (executor_args self)) logprefix)
              (items pods) w')
    as (Hcalls & Hprefix & _).
  cbn [logged trace]. split; [exact Hprefix|]. cbn [forallb]. exact Hcalls.
Qed.

(** X21: on a client that serves every log and every write, and for pods that
    all have metadata, [write_log] returns and writes one file per pod,
    named by the prefix, a hyphen, the pod's name and [.txt]. *)
Theorem write_log_one_file_per_pod (self : handle) (logprefix : string)
    (w w' : world) (pods : V1PodList) :
  cls self = BatchJob →
  serves_logs cl →
  cl _ (list_namespaced_pod (namespace (executor_args self))
          ("job-name=" +:+ str_opt (jobname self))) w = (inr pods, w') →
  Forall (λ pod, is_Some (pod_metadata pod)) (items pods) →
  result (run cl (write_log self logprefix) w) = inr tt
  ∧ (written_files (trace (run cl (write_log self logprefix) w))).*2
    = map (log_file logprefix) (items pods).
Proof.
  intros Hc Hserve Hcall Hpods. rewrite (write_log_unfold self logprefix Hc).
  cbn [run]. rewrite Hcall.
  assert (Hr := for_each_served (namespace (executor_args self)) logprefix
                  (items pods) w' Hserve Hpods).
  destruct (for_each_files _ _
              (write_pod_log_files (namespace (executor_args self)) logprefix)
              (items pods) w')
    as (_ & _ & Heq).
  cbn [logged trace result]. split; [exact Hr|]. exact (Heq tt Hr).
Qed.

(** X22: when the listing of the pods fails, [write_log] fails with the client's
    exception and asks for no file. *)
Theorem write_log_list_error (self : handle) (logprefix : string)
    (w w' : world) (e : exn) :
  cls self = BatchJob →
  cl _ (list_namespaced_pod (namespace (executor_args self))
          ("job-name=" +:+ str_opt (jobname self))) w = (inl e, w') →
  result (run cl (write_log self logprefix) w) = inl e
  ∧ final (run cl (write_log self logprefix) w) = w'
  ∧ written_files (trace (run cl (write_log self logprefix) w)) = [].
Proof.
  intros Hc Hcall. rewrite (write_log_unfold self logprefix Hc).
  cbn [run]. now rewrite Hcall.
Qed.

End MoreLogs.

Module MoreExamples.

Import FakeCluster.

(** The job of the handle is not on the cluster: the server answers 404. *)
Lemma status_single_read_witness :
  cls submitted = BatchJob
  ∧ run answer (status submitted) ∅
    = {| result := inl (ApiException 404 "Not Found"); final := ∅;
         trace := [ev (read_namespaced_job (Some "snakejob-align-reads-42x7k2q")
                         "default")] |}.
Proof.
  split; [reflexivity|].
  exact (status_single_read answer submitted ∅ (ApiException 404 "Not Found") ∅
           eq_refl eq_refl).
Defined.

Lemma status_trace_witness :
  cls submitted = BatchJob
  ∧ trace (run answer (status submitted)
             (cluster_with (reported (Some 0) (Some 1) None None (Some 3))))
    = [ev (read_namespaced_job (Some "snakejob-align-reads-42x7k2q") "default")].
Proof.
  split; [reflexivity|].
  exact (status_trace answer submitted _ eq_refl).
Defined.

(** Two failures reported. *)
Lemma status_failed_iff_witness :
  Some 2 ≠ Some 0
  ∧ result (run answer (status submitted)
              (cluster_with (reported (Some 2) (Some 1) None None (Some 3))))
    = inr FAILED.
Proof.
  split; [discriminate|].
  apply (status_failed_iff answer submitted
           (cluster_with (reported (Some 2) (Some 1) None None (Some 3)))
           (cluster_with (reported (Some 2) (Some 1) None None (Some 3)))
           (reported (Some 2) (Some 1) None None (Some 3))
           {| failed := Some 2; active := Some 1; ready := None; succeeded := None |}
           eq_refl eq_refl eq_refl).
  discriminate.
Defined.

(** succeeded=3 of completions=3, the active and ready counts absent. *)
Lemma status_succeeded_iff_witness :
  result (run answer (status submitted)
            (cluster_with (reported (Some 0) None None (Some 3) (Some 3))))
  = inr SUCCEEDED.
Proof.
  apply (status_succeeded_iff answer submitted
           (cluster_with (reported (Some 0) None None (Some 3) (Some 3)))
           (cluster_with (reported (Some 0) None None (Some 3) (Some 3)))
           (reported (Some 0) None None (Some 3) (Some 3))
           {| failed := Some 0; active := None; ready := None; succeeded := Some 3 |}
           eq_refl eq_refl eq_refl).
  repeat split. exists 3. eexists. repeat split. discriminate.
Defined.

Lemma status_without_spec_witness :
  j_spec FakeLogs.without_spec = None
  ∧ result (run answer (status submitted) (cluster_with FakeLogs.without_spec))
    = inl (AttributeError "NoneType" "completions").
Proof.
  split; [reflexivity|].
  apply (status_without_spec answer submitted
           (cluster_with FakeLogs.without_spec) (cluster_with FakeLogs.without_spec)
           FakeLogs.without_spec
           {| failed := Some 0; active := None; ready := None; succeeded := Some 3 |}
           eq_refl eq_refl eq_refl eq_refl).
  repeat split.
Defined.

Lemma status_without_status_witness :
  j_status FakeLogs.without_status = None
  ∧ result (run answer (status submitted) (cluster_with FakeLogs.without_status))
    = inl (AttributeError "NoneType" "failed").
Proof.
  split; [reflexivity|].
  now rewrite (status_without_status answer submitted
                 (cluster_with FakeLogs.without_status)
                 (cluster_with FakeLogs.without_status)
                 FakeLogs.without_status eq_refl eq_refl eq_refl).
Defined.

(** Each class is handed the other's object, which the cluster refuses. *)
Lemma submit_error_witness :
  handle_after (run answer (submit (new BatchJob align_reads settings) minicluster_body) ∅)
  = None
  ∧ handle_after (run answer (submit (new FluxMiniCluster align_reads settings) batch_body) ∅)
    = None.
Proof.
  split.
  - now rewrite (proj1 (submit_error answer (new BatchJob align_reads settings)
                          minicluster_body ∅ _ _) eq_refl eq_refl).
  - now rewrite (proj2 (submit_error answer (new FluxMiniCluster align_reads settings)
                          batch_body ∅ _ _) eq_refl eq_refl).
Defined.

Lemma submit_frame_witness :
  handle_after (run answer (submit (new BatchJob align_reads settings) batch_body) ∅)
  = Some submitted
  ∧ job submitted = align_reads
  ∧ jobprefix submitted = "snakejob-align-reads-42".
Proof.
  split; [reflexivity|].
  destruct (submit_frame answer (new BatchJob align_reads settings) submitted
              batch_body ∅ eq_refl) as (_ & Hj & _ & Hp & _).
  split; [exact Hj|]. now rewrite Hp.
Defined.

Lemma submit_then_status_witness :
  cls (new BatchJob align_reads settings) = BatchJob
  ∧ trace (run answer
             (submit (new BatchJob align_reads settings) batch_body ≫= λ r, status r.2) ∅)
    = [ev (create_namespaced_job "default" batch_body);
       ev (read_namespaced_job (Some "snakejob-align-reads-42x7k2q") "default")].
Proof.
  split; [reflexivity|].
  exact (submit_then_status answer (new BatchJob align_reads settings) batch_body
           ∅ _ _ _ eq_refl eq_refl eq_refl).
Defined.

(** The cluster of [FakeCluster] lists no pod. *)
Lemma write_log_BatchJob_no_pods_witness :
  cls submitted = BatchJob
  ∧ run answer (write_log submitted "logs/align") ∅
    = {| result := inr tt; final := ∅;
         trace := [ev (list_namespaced_pod "default"
                         "job-name=snakejob-align-reads-42x7k2q")] |}.
Proof.
  split; [reflexivity|].
  exact (write_log_BatchJob_no_pods answer submitted "logs/align" ∅ ∅ eq_refl eq_refl).
Defined.

(** The two pods of [FakeLogs]: two files, in the order of the listing. *)
Lemma write_log_files_in_order_witness :
  cls submitted = BatchJob
  ∧ (written_files (trace (run FakeLogs.answer (write_log submitted "logs/align") []))).*2
    `prefix_of` ["logs/align-snakejob-align-reads-42x7k2q-8pzvd.txt";
                 "logs/align-snakejob-align-reads-42x7k2q-tq4xm.txt"].
Proof.
  split; [reflexivity|].
  exact (proj1 (write_log_files_in_order FakeLogs.answer submitted "logs/align" [] []
                  {| items := FakeLogs.pods |} eq_refl eq_refl)).
Defined.

Lemma write_log_one_file_per_pod_witness :
  serves_logs FakeLogs.answer
  ∧ result (run FakeLogs.answer (write_log submitted "logs/align") []) = inr tt
  ∧ (written_files (trace (run FakeLogs.answer (write_log submitted "logs/align") []))).*2
    = ["logs/align-snakejob-align-reads-42x7k2q-8pzvd.txt";
       "logs/align-snakejob-align-reads-42x7k2q-tq4xm.txt"]
  ∧ final (run FakeLogs.answer (write_log submitted "logs/align") [])
    = [("logs/align-snakejob-align-reads-42x7k2q-8pzvd.txt",
        "log of snakejob-align-reads-42x7k2q-8pzvd");
       ("logs/align-snakejob-align-reads-42x7k2q-tq4xm.txt",
        "log of snakejob-align-reads-42x7k2q-tq4xm")].
Proof.
  assert (Hs : serves_logs FakeLogs.answer).
  { repeat split; intros; simpl; eauto. }
  split; [exact Hs|].
  destruct (write_log_one_file_per_pod FakeLogs.answer submitted "logs/align" [] []
              {| items := FakeLogs.pods |} eq_refl Hs eq_refl) as [Hr Hf].
  { repeat constructor; simpl; eauto. }
  split; [exact Hr|]. split; [exact Hf|]. reflexivity.
Defined.

Lemma write_log_list_error_witness :
  cls submitted = BatchJob
  ∧ result (run FakeLogs.unreachable (write_log submitted "logs/align") [])
    = inl (ApiException 503 "Service Unavailable")
  ∧ written_files (trace (run FakeLogs.unreachable (write_log submitted "logs/align") []))
    = [].
Proof.
  split; [reflexivity|].
  destruct (write_log_list_error FakeLogs.unreachable submitted "logs/align" [] [] _
              eq_refl eq_refl) as (Hr & _ & Hf).
  split; [exact Hr|exact Hf].
Defined.

End MoreExamples.
